(** * pizza.hunt: the place-normalisation and search/load pipeline

    A shallow embedding of [src/scripts/main.js].  That file holds three
    variants of one browser script, one after the other:

    - lines 1-215: the script that talks to the Python API only
      ([Module PythonApi]);
    - lines 216-498: the script that talks either to the Python API or
      directly to Overpass/Nominatim, chosen by [API_BASE]
      ([Module Hybrid]);
    - lines 499-772: the script that talks to Overpass/Nominatim only
      ([Module OverpassOnly]).

    JavaScript values are kept dynamic where the script tests them for
    truthiness; the documented shape of each upstream response is a
    record, and a body of another shape is outside the model.
    Numbers are IEEE-754 doubles ([PrimFloat.float]).  A string is a
    sequence of code units, here limited to U+0000..U+00FF (one [ascii]
    per code unit).

    An [async function] is split at its [await]: the part that runs when
    the function is called, under the source's name, and the part that
    runs when the awaited response settles, named [_resume].  Nothing of
    the program state is read or written between [await fetch(..)] and
    [await response.json()], so the two awaits are one suspension point.

    The map widget (Leaflet) is not part of the repository.  What the
    scripts need of it is a class, [MapWidget]: which coordinates it
    accepts and the error it throws for the others.  A call that throws
    ends the function that made it, unless a [try] of the script catches
    the error. *)

From Stdlib Require Import Floats.PrimFloat.
From stdpp Require Import base strings gmap list pretty.

Set Warnings "-inexact-float".
Open Scope string_scope.
Open Scope list_scope.

(** ** JavaScript values *)

Inductive JsVal : Type :=
  | JUndefined
  | JNull
  | JBool (b : bool)
  | JNum (x : float)
  | JStr (s : string).

(** ToBoolean: [undefined], [null], [false], [0], [-0], [NaN] and [''] are
    falsy, every other value is truthy. *)
Definition truthy (v : JsVal) : bool :=
  match v with
  | JUndefined | JNull => false
  | JBool b => b
  | JNum x => negb (is_zero x || is_nan x)
  | JStr s => negb (String.eqb s "")
  end.

(** [a || b] *)
Definition js_or (a b : JsVal) : JsVal := if truthy a then a else b.

(** What the script leaves to the JavaScript engine: printing a number and
    reading one from text. *)
Class JsRuntime := {
  NumberToString : float -> string;
  StringToFloat : string -> float
}.

Section Runtime.
Context {rt : JsRuntime}.

(** ToString, as a template literal [`${v}`] applies it. *)
Definition ToString (v : JsVal) : string :=
  match v with
  | JUndefined => "undefined"
  | JNull => "null"
  | JBool true => "true"
  | JBool false => "false"
  | JNum x => NumberToString x
  | JStr s => s
  end.

(** [parseFloat(v)]: the argument is converted to a string first. *)
Definition parseFloat (v : JsVal) : JsVal := JNum (StringToFloat (ToString v)).

End Runtime.

(** ** Strings *)

(** WhiteSpace and LineTerminator code units below U+0100: TAB, LF, VT, FF,
    CR, SP and NBSP. *)
Definition isWhiteSpace (c : Ascii.ascii) : bool :=
  let n := Ascii.N_of_ascii c in
  ((9 <=? n) && (n <=? 13) || (n =? 32) || (n =? 160))%N.

Fixpoint trimStart (s : string) : string :=
  match s with
  | EmptyString => EmptyString
  | String c r => if isWhiteSpace c then trimStart r else s
  end.

Fixpoint trimEnd (s : string) : string :=
  match s with
  | EmptyString => EmptyString
  | String c r =>
      match trimEnd r with
      | EmptyString => if isWhiteSpace c then EmptyString else String c EmptyString
      | r' => String c r'
      end
  end.

(** [s.trim()] *)
Definition trim (s : string) : string := trimEnd (trimStart s).

(** [hay.includes(needle)] *)
Fixpoint includes (needle hay : string) : bool :=
  String.prefix needle hay ||
  match hay with
  | EmptyString => false
  | String _ r => includes needle r
  end.

(** [parts.join(sep)], given the text of each element. *)
Fixpoint join (sep : string) (parts : list string) : string :=
  match parts with
  | [] => ""
  | [p] => p
  | p :: rest => p +:+ sep +:+ join sep rest
  end.

(** ** Errors and responses *)

Inductive ErrorName := PlainError | TypeError | SyntaxError | PositionError.

Record JsError := { err_name : ErrorName; message : string }.

(** [new Error(v)]: the message is ToString of the argument, and empty when
    the argument is [undefined]. *)
Definition new_Error {rt : JsRuntime} (v : JsVal) : JsError :=
  {| err_name := PlainError;
     message := match v with JUndefined => "" | _ => ToString v end |}.

(** How [await fetch(..)] followed by [await response.json()] settles.
    [fetch] rejects with a [TypeError] when the transport fails;
    [response.json()] rejects with a [SyntaxError] when the body is not
    JSON; otherwise the parsed body is delivered. *)
Inductive Reply (A : Type) : Type :=
  | FetchRejected (msg : string)
  | JsonRejected (msg : string)
  | JsonParsed (data : A).
Arguments FetchRejected {A} msg.
Arguments JsonRejected {A} msg.
Arguments JsonParsed {A} data.

Definition fetch_error (msg : string) : JsError :=
  {| err_name := TypeError; message := msg |}.

Definition json_error (msg : string) : JsError :=
  {| err_name := SyntaxError; message := msg |}.

(** ** The map widget

    [map.setView([lat, lng], zoom)] and [L.marker([lat, lng], ..)] both
    make a position of the two coordinates.  [toLatLng lat lng] is that
    position, or [None] when the widget throws for them, which Leaflet does
    ("Invalid LatLng object") when a coordinate is [NaN] or [undefined];
    [LatLngError lat lng] is the error thrown.  Two finite numbers are
    accepted and kept as they are; nothing is assumed of other values. *)
Class MapWidget := {
  toLatLng : JsVal -> JsVal -> option (JsVal * JsVal);
  LatLngError : JsVal -> JsVal -> JsError;
  toLatLng_number : forall x y : float,
    is_finite x = true -> is_finite y = true ->
    toLatLng (JNum x) (JNum y) = Some (JNum x, JNum y)
}.

(** ** Data model *)

(** The record handed to the marker layer.  A field the object does not
    have reads as [JUndefined]. *)
Record Place := {
  p_id : JsVal;
  p_lat : JsVal;
  p_lng : JsVal;
  p_name : JsVal;
  p_cuisine : JsVal;
  p_amenity : JsVal;
  p_phone : JsVal;
  p_website : JsVal;
  p_address : JsVal;
  p_opening_hours : JsVal;
  p_takeaway : JsVal;
  p_delivery : JsVal
}.

(** Overpass: [{elements: [{id, lat?, lon?, center?: {lat, lon}, tags?}]}]. *)
Record Center := { c_lat : JsVal; c_lon : JsVal }.

Record Element := {
  el_id : JsVal;
  el_lat : JsVal;
  el_lon : JsVal;
  el_center : option Center;
  el_tags : option (gmap string JsVal)
}.

Record OverpassData := { elements : list Element }.

(** Python API: [{success, places, error?}] and
    [{success, city, lat, lng, error?}]. *)
Record PlacesEnvelope := {
  pe_success : JsVal;
  pe_places : list Place;
  pe_error : JsVal
}.

Record CityEnvelope := {
  ce_success : JsVal;
  ce_city : JsVal;
  ce_lat : JsVal;
  ce_lng : JsVal;
  ce_error : JsVal
}.

(** Nominatim: [[{lat, lon, display_name}]] or [[]]. *)
Record Match := { n_lat : JsVal; n_lon : JsVal; n_display_name : JsVal }.

(** [tags.key], [tags['key']] *)
Definition tag (tags : gmap string JsVal) (key : string) : JsVal :=
  default JUndefined (tags !! key).

(** A marker of the cluster layer: [L.marker([place.lat, place.lng])] with
    the popup built from the place and the place's name as tooltip.  The
    popup is kept as the place it is built from. *)
Record Marker := {
  m_latlng : JsVal * JsVal;
  m_popup : Place;
  m_tooltip : JsVal
}.

(** A network call, kept as the values its URL or body is interpolated
    from.  The Overpass query selects the box [lat - 0.05 .. lat + 0.05],
    [lng - 0.05 .. lng + 0.05]; [out_center] tells [out center;] from
    [out;]. *)
Inductive Request :=
  | GetPizzaPlaces (base : string) (lat lng : JsVal)
  | PostOverpass (endpoint : string) (lat lng : JsVal) (out_center : bool)
  | GetSearchCity (base : string) (city : string)
  | GetNominatim (city : string) (userAgent : string).

(** The centre a place request is about, if it is one. *)
Definition request_center (r : Request) : option (JsVal * JsVal) :=
  match r with
  | GetPizzaPlaces _ lat lng => Some (lat, lng)
  | PostOverpass _ lat lng _ => Some (lat, lng)
  | GetSearchCity _ _ | GetNominatim _ _ => None
  end.

(** ** Program state

    The globals [currentLat] and [currentLng], the map widget (its view
    and its marker cluster), the two DOM elements the script writes, the
    network calls issued so far (oldest first) and what [console.error]
    received. *)
Record State := mkState {
  currentLat : JsVal;
  currentLng : JsVal;
  mapCenter : JsVal * JsVal;
  mapZoom : float;
  markerCluster : list Marker;
  statusText : string;
  statusClass : string;
  loadingShown : bool;
  sent : list Request;
  errorLog : list (string * JsError)
}.

(** [let currentLat = 52.52; let currentLng = 13.405;] and the map as
    [initMap] leaves it: the view on the centre at zoom 12, an empty
    cluster. *)
Definition initial_state : State :=
  {| currentLat := JNum 52.52; currentLng := JNum 13.405;
     mapCenter := (JNum 52.52, JNum 13.405); mapZoom := 12;
     markerCluster := []; statusText := ""; statusClass := "";
     loadingShown := false; sent := []; errorLog := [] |}.

Definition set_center (lat lng : JsVal) (s : State) : State :=
  mkState lat lng (mapCenter s) (mapZoom s) (markerCluster s)
    (statusText s) (statusClass s) (loadingShown s) (sent s) (errorLog s).

(** The view of the map becomes [(lat, lng)] at [zoom]. *)
Definition set_view (lat lng : JsVal) (zoom : float) (s : State) : State :=
  mkState (currentLat s) (currentLng s) (lat, lng) zoom (markerCluster s)
    (statusText s) (statusClass s) (loadingShown s) (sent s) (errorLog s).

Definition set_markers (ms : list Marker) (s : State) : State :=
  mkState (currentLat s) (currentLng s) (mapCenter s) (mapZoom s) ms
    (statusText s) (statusClass s) (loadingShown s) (sent s) (errorLog s).

(** [fetch(..)]: the call is issued. *)
Definition fetch (r : Request) (s : State) : State :=
  mkState (currentLat s) (currentLng s) (mapCenter s) (mapZoom s)
    (markerCluster s) (statusText s) (statusClass s) (loadingShown s)
    (sent s ++ [r]) (errorLog s).

(** [console.error(label, error)] *)
Definition console_error (label : string) (e : JsError) (s : State) : State :=
  mkState (currentLat s) (currentLng s) (mapCenter s) (mapZoom s)
    (markerCluster s) (statusText s) (statusClass s) (loadingShown s)
    (sent s) (errorLog s ++ [(label, e)]).

(** [showLoading(show)]: the overlay is displayed or hidden. *)
Definition showLoading (show : bool) (s : State) : State :=
  mkState (currentLat s) (currentLng s) (mapCenter s) (mapZoom s)
    (markerCluster s) (statusText s) (statusClass s) show
    (sent s) (errorLog s).

(** [updateStatus(message, type)]: [status.textContent = message;
    status.className = `status ${type}`]. *)
Definition updateStatus (msg type : string) (s : State) : State :=
  mkState (currentLat s) (currentLng s) (mapCenter s) (mapZoom s)
    (markerCluster s) msg ("status " +:+ type) (loadingShown s)
    (sent s) (errorLog s).

(** [markerCluster.clearLayers()] and [markerCluster.addLayer(marker)] *)
Definition clearLayers (s : State) : State := set_markers [] s.

Definition addLayer (m : Marker) (s : State) : State :=
  set_markers (markerCluster s ++ [m]) s.

(** The marker of a place: [m_latlng] is the pair of coordinates handed to
    [L.marker], [m_popup] the place its popup shows, [m_tooltip] its name. *)
Definition marker_of (place : Place) : Marker :=
  {| m_latlng := (p_lat place, p_lng place);
     m_popup := place;
     m_tooltip := p_name place |}.

(** ** Control flow of a [try] block

    The body of a [try] either completes (falls off its end, or leaves
    through [return]) or throws; the state reached so far is kept either
    way. *)
Inductive Completion :=
  | Normal (s : State)
  | Throw (error : JsError) (s : State).

(** [c; k]: the rest runs only if [c] did not throw. *)
Definition and_then (c : Completion) (k : State -> Completion) : Completion :=
  match c with
  | Normal s => k s
  | Throw error s => Throw error s
  end.

(** An error no [try] of the script catches ends the listener or callback
    that was running; the state is the one reached when it was thrown. *)
Definition uncaught (c : Completion) : State :=
  match c with
  | Normal s => s
  | Throw _ s => s
  end.

(** [const data = await (await fetch(..)).json(); k] inside a [try]. *)
Definition await {A} (reply : Reply A) (k : A -> State -> Completion)
    (s : State) : Completion :=
  match reply with
  | FetchRejected m => Throw (fetch_error m) s
  | JsonRejected m => Throw (json_error m) s
  | JsonParsed data => k data s
  end.

(** [try { body } catch (error) { handler }] *)
Definition try_catch (body : Completion) (handler : JsError -> State -> State)
    : State :=
  match body with
  | Normal s => s
  | Throw error s => handler error s
  end.

Section Widget.
Context {mw : MapWidget}.

(** The widget accepts the coordinates. *)
Definition map_accepts (lat lng : JsVal) : bool :=
  match toLatLng lat lng with
  | Some _ => true
  | None => false
  end.

(** [map.setView([lat, lng], zoom)]: the view moves to the position made
    of the coordinates, or the widget throws and the view stays. *)
Definition setView (lat lng : JsVal) (zoom : float) (s : State) : Completion :=
  match toLatLng lat lng with
  | Some (la, ln) => Normal (set_view la ln zoom s)
  | None => Throw (LatLngError lat lng) s
  end.

(** The [forEach] of [addPizzaMarkers]: for each place in turn,
    [L.marker([place.lat, place.lng], ..)] makes the marker, or throws,
    and [markerCluster.addLayer(marker)] adds it.  A throw ends the loop
    with the markers added so far. *)
Fixpoint addMarkers (places : list Place) (s : State) : Completion :=
  match places with
  | [] => Normal s
  | place :: rest =>
      match toLatLng (p_lat place) (p_lng place) with
      | Some _ => addMarkers rest (addLayer (marker_of place) s)
      | None => Throw (LatLngError (p_lat place) (p_lng place)) s
      end
  end.

(** [addPizzaMarkers(places)], the same in the three variants: clear the
    cluster, then add one marker per place, in order. *)
Definition addPizzaMarkers (places : list Place) (s : State) : Completion :=
  addMarkers places (clearLayers s).

(** [initMap()] (lines 35-61, 263-288, 529-556): the map is created with
    its view on the current centre at zoom 12, and a new, empty marker
    cluster is added to it. *)
Definition initMap (s : State) : Completion :=
  and_then (setView (currentLat s) (currentLng s) 12 s)
    (fun s => Normal (set_markers [] s)).

End Widget.

(** [createPopupContent(place)], the same in the three variants (lines
    124-146, 422-443, 655-688).  The HTML is built by appending one piece
    after the other; a piece is kept as the template it instantiates and
    the value interpolated into it. *)
Inductive PopupPiece :=
  | PopupTitle (name : JsVal)
  | PopupInfo (label : string) (value : JsVal)
  | PopupWebsite (href : JsVal)
  | PopupBadge (text : string).

(** [v === 'yes'] *)
Definition is_yes (v : JsVal) : bool :=
  match v with
  | JStr text => String.eqb text "yes"
  | _ => false
  end.

Definition createPopupContent (place : Place) : list PopupPiece :=
  let html := [PopupTitle (p_name place)] in
  let html := html ++ [PopupInfo "Type:" (p_amenity place)] in
  let html := if truthy (p_address place)
              then html ++ [PopupInfo "Address:" (p_address place)] else html in
  let html := if truthy (p_phone place)
              then html ++ [PopupInfo "Phone:" (p_phone place)] else html in
  let html := if truthy (p_website place)
              then html ++ [PopupWebsite (p_website place)] else html in
  let html := if truthy (p_opening_hours place)
              then html ++ [PopupInfo "Hours:" (p_opening_hours place)] else html in
  let html := if is_yes (p_takeaway place)
              then html ++ [PopupBadge "Takeaway available"] else html in
  let html := if is_yes (p_delivery place)
              then html ++ [PopupBadge "Delivery available"] else html in
  html.

(** The icon of a cluster, [iconCreateFunction] of [initMap] (lines 45-56,
    272-283, 540-551); [count] is [cluster.getChildCount()].  The HTML of
    the icon is kept as the count it shows. *)
Record DivIcon := {
  icon_count : nat;
  icon_className : string;
  icon_size : nat * nat
}.

Definition iconCreateFunction (count : nat) : DivIcon :=
  let size := "small" in
  let size := if (10 <=? count)%nat then "medium" else size in
  let size := if (100 <=? count)%nat then "large" else size in
  {| icon_count := count;
     icon_className := "pizza-cluster pizza-cluster-" +:+ size;
     icon_size := (40, 40) |}.

(** ** [buildAddress] (lines 618-624)

    [Hybrid] calls a function of this name as well; the text of that
    variant stops before its definition, so the one definition of the
    repository is used for both. *)
Section Address.
Context {rt : JsRuntime}.

(** The text [Array.prototype.join] gives an element: empty for
    [undefined] and [null], ToString otherwise. *)
Definition element_text (v : JsVal) : string :=
  match v with
  | JUndefined | JNull => ""
  | _ => ToString v
  end.

(** [if (tags[key]) parts.push(tags[key])] *)
Definition push_if_present (tags : gmap string JsVal) (key : string)
    (parts : list JsVal) : list JsVal :=
  if truthy (tag tags key) then parts ++ [tag tags key] else parts.

Definition buildAddress (tags : gmap string JsVal) : string :=
  let parts := [] in
  let parts := push_if_present tags "addr:housenumber" parts in
  let parts := push_if_present tags "addr:street" parts in
  let parts := push_if_present tags "addr:city" parts in
  let joined := join ", " (map element_text parts) in
  if truthy (JStr joined) then joined else "".

End Address.

(** ** Variant 1: Python API only (lines 1-215) *)
Module PythonApi.
Section Script.
Context {rt : JsRuntime} {mw : MapWidget}.

(** [window.location.hostname] *)
Variable hostname : string.

Definition API_BASE : string :=
  if String.eqb hostname "localhost"
  then "http://127.0.0.1:5000"
  else "https://pizza-map-api-aaac06da3a8f.herokuapp.com".

(** [loadPizzaPlaces] up to its [await] (lines 75-82). *)
Definition loadPizzaPlaces (s : State) : State :=
  let s := showLoading true s in
  let s := updateStatus "Loading pizza places from API..." "" s in
  fetch (GetPizzaPlaces API_BASE (currentLat s) (currentLng s)) s.

Definition loadPizzaPlaces_catch (error : JsError) (s : State) : State :=
  let s := console_error "Error loading pizza places:" error s in
  updateStatus ("Error: " +:+ message error) "error" s.

(** [loadPizzaPlaces] from its [await] on (lines 83-98); [showLoading(false)]
    is the [finally] clause. *)
Definition loadPizzaPlaces_resume (reply : Reply PlacesEnvelope) (s : State)
    : State :=
  let body :=
    await reply (fun data s =>
      if negb (truthy (pe_success data)) then
        Normal (updateStatus ("Error: " +:+ ToString (pe_error data)) "error" s)
      else
        let places := pe_places data in
        and_then (addPizzaMarkers places s) (fun s =>
        Normal (updateStatus
                  ("Found " +:+ pretty (length places) +:+ " pizza places!")
                  "success" s))) s in
  showLoading false (try_catch body loadPizzaPlaces_catch).

(** Lines 178-183. *)
Definition updateLocation (lat lng : JsVal) (s : State) : Completion :=
  let s := set_center lat lng s in
  and_then (setView lat lng 12 s) (fun s =>
  Normal (loadPizzaPlaces s)).

(** [searchCity] up to its [await] (lines 148-162); [value] is
    [cityInput.value]. *)
Definition searchCity (value : string) (s : State) : State :=
  let cityName := trim value in
  if negb (truthy (JStr cityName)) then
    updateStatus "Please enter a city name" "error" s
  else
    let s := updateStatus "Searching for city..." "" s in
    fetch (GetSearchCity API_BASE cityName) s.

Definition searchCity_catch (error : JsError) (s : State) : State :=
  let s := console_error "City search error:" error s in
  updateStatus ("City search error: " +:+ message error) "error" s.

(** [searchCity] from its [await] on (lines 163-175). *)
Definition searchCity_resume (reply : Reply CityEnvelope) (s : State) : State :=
  let body :=
    await reply (fun data s =>
      if negb (truthy (ce_success data)) then
        Normal (updateStatus
                  ("City search error: " +:+ ToString (ce_error data)) "error" s)
      else
        and_then (updateLocation (ce_lat data) (ce_lng data) s) (fun s =>
        Normal (updateStatus ("Found " +:+ ToString (ce_city data)) "success" s))) s in
  try_catch body searchCity_catch.

(** [useCurrentLocation] (lines 185-201); [geolocation] is the truthiness
    of [navigator.geolocation].  The two callbacks handed to
    [getCurrentPosition] follow. *)
Definition useCurrentLocation (geolocation : bool) (s : State) : State :=
  if geolocation then updateStatus "Getting your location..." "" s
  else updateStatus "Geolocation not supported" "error" s.

Definition useCurrentLocation_success (latitude longitude : JsVal) (s : State)
    : State :=
  uncaught (updateLocation latitude longitude s).

Definition useCurrentLocation_error (error : JsError) (s : State) : State :=
  let s := console_error "Geolocation error:" error s in
  updateStatus "Location access denied" "error" s.

(** Lines 203-215. *)
Definition searchCurrentArea (s : State) : State :=
  let center := mapCenter s in
  let zoom := mapZoom s in
  if (zoom <? 10)%float then
    updateStatus "Please zoom in more to search a smaller area" "error" s
  else
    let s := set_center (fst center) (snd center) s in
    let s := updateStatus "Searching pizza places in current area..." "" s in
    loadPizzaPlaces s.

(** The script from its first line to the end of its [DOMContentLoaded]
    listener (lines 8-33): the globals get their values, [currentLat =
    52.52] and [currentLng = 13.405], then the listener runs [initMap();
    loadPizzaPlaces();].  [s] is the page as the browser built it.  The
    [moveend] listener it installs only restyles a button; the [keypress]
    listener on the city field follows. *)
Definition DOMContentLoaded (s : State) : State :=
  let s := set_center (JNum 52.52) (JNum 13.405) s in
  uncaught (and_then (initMap s) (fun s => Normal (loadPizzaPlaces s))).

(** Lines 28-32; [key] is [e.key], [value] the text of the field. *)
Definition keypress (key value : string) (s : State) : State :=
  if String.eqb key "Enter" then searchCity value s else s.

(** What can happen once the page is loaded: a call of one of the
    functions the page exposes, a key pressed in the city field, the
    settling of a request, the answer of the geolocation service, or the
    user moving the map. *)
Inductive Event :=
  | KeyPressed (key value : string)
  | SearchCityCalled (value : string)
  | CitySettled (reply : Reply CityEnvelope)
  | UseCurrentLocationCalled (geolocation : bool)
  | PositionFound (latitude longitude : JsVal)
  | PositionFailed (error : JsError)
  | SearchCurrentAreaCalled
  | MapMoved (lat lng : JsVal) (zoom : float)
  | PlacesSettled (reply : Reply PlacesEnvelope).

Definition handle (e : Event) (s : State) : State :=
  match e with
  | KeyPressed key value => keypress key value s
  | SearchCityCalled value => searchCity value s
  | CitySettled reply => searchCity_resume reply s
  | UseCurrentLocationCalled geolocation => useCurrentLocation geolocation s
  | PositionFound latitude longitude =>
      useCurrentLocation_success latitude longitude s
  | PositionFailed error => useCurrentLocation_error error s
  | SearchCurrentAreaCalled => searchCurrentArea s
  | MapMoved lat lng zoom => set_view lat lng zoom s
  | PlacesSettled reply => loadPizzaPlaces_resume reply s
  end.

Definition run (events : list Event) (s : State) : State :=
  fold_left (fun s e => handle e s) events s.

(** The events that can put markers on the map, that can move the centre,
    and the one that is the user's own doing. *)
Definition may_render (e : Event) : bool :=
  match e with
  | PlacesSettled (JsonParsed _) => true
  | _ => false
  end.

Definition may_recentre (e : Event) : bool :=
  match e with
  | CitySettled (JsonParsed _) | PositionFound _ _ | SearchCurrentAreaCalled => true
  | _ => false
  end.

Definition is_map_move (e : Event) : bool :=
  match e with
  | MapMoved _ _ _ => true
  | _ => false
  end.

End Script.
End PythonApi.

(** ** Variant 2: Python API or Overpass/Nominatim (lines 216-498)

    [API_BASE] is a constant the source sets by leaving one of three lines
    uncommented; the uncommented one is [shipped_API_BASE].  The text of
    this variant stops after [updateLocation]. *)
Module Hybrid.

Definition shipped_API_BASE : string := "https://overpass-api.de/api/interpreter".

Section Script.
Context {rt : JsRuntime} {mw : MapWidget}.
Variable API_BASE : string.

(** [API_BASE.includes('overpass-api.de')] *)
Definition direct_overpass : bool := includes "overpass-api.de" API_BASE.

(** The coordinates of lines 342-351: the direct ones if both are truthy,
    else those of [el.center] if there is one, else none ([return null]). *)
Definition resolveCoordinates (el : Element) : option (JsVal * JsVal) :=
  if truthy (el_lat el) && truthy (el_lon el) then Some (el_lat el, el_lon el)
  else match el_center el with
       | Some center => Some (c_lat center, c_lon center)
       | None => None
       end.

(** The object literal of lines 353-367. *)
Definition placeOf (el : Element) (lat lng : JsVal) : Place :=
  let tags := default ∅ (el_tags el) in
  {| p_id := el_id el;
     p_lat := lat;
     p_lng := lng;
     p_name := js_or (tag tags "name") (JStr "Pizza Place");
     p_cuisine := js_or (tag tags "cuisine") (JStr "pizza");
     p_amenity := js_or (js_or (tag tags "amenity") (tag tags "shop"))
                        (JStr "restaurant");
     p_phone := js_or (tag tags "phone") (JStr "");
     p_website := js_or (tag tags "website") (JStr "");
     p_address := JStr (buildAddress tags);
     p_opening_hours := js_or (tag tags "opening_hours") (JStr "");
     p_takeaway := js_or (tag tags "takeaway") (JStr "");
     p_delivery := js_or (tag tags "delivery") (JStr "") |}.

(** The arrow function of lines 341-368; [None] is [null]. *)
Definition normalizeElement (el : Element) : option Place :=
  match resolveCoordinates el with
  | Some (lat, lng) => Some (placeOf el lat lng)
  | None => None
  end.

(** [.filter(Boolean)] on an array of objects and [null]s. *)
Fixpoint filter_Boolean (l : list (option Place)) : list Place :=
  match l with
  | [] => []
  | Some place :: rest => place :: filter_Boolean rest
  | None :: rest => filter_Boolean rest
  end.

(** [data.elements.map(..).filter(Boolean)] (lines 340-369). *)
Definition normalize (els : list Element) : list Place :=
  filter_Boolean (map normalizeElement els).

(** [loadPizzaPlaces] up to its [await] (lines 307-337 and 372-374). *)
Definition loadPizzaPlaces (s : State) : State :=
  let s := showLoading true s in
  let s := updateStatus "Loading pizza places..." "" s in
  if direct_overpass then
    fetch (PostOverpass API_BASE (currentLat s) (currentLng s) true) s
  else
    fetch (GetPizzaPlaces API_BASE (currentLat s) (currentLng s)) s.

Definition loadPizzaPlaces_catch (error : JsError) (s : State) : State :=
  let s := console_error "Error loading pizza places:" error s in
  updateStatus ("Error: " +:+ message error) "error" s.

(** Lines 383-384, after either branch. *)
Definition render (places : list Place) (s : State) : Completion :=
  and_then (addPizzaMarkers places s) (fun s =>
  Normal (updateStatus
            ("Found " +:+ pretty (length places) +:+ " pizza places!")
            "success" s)).

(** [loadPizzaPlaces] from the [await] of its Overpass branch on
    (lines 339-369, 383-391). *)
Definition loadPizzaPlaces_resume_overpass (reply : Reply OverpassData)
    (s : State) : State :=
  let body := await reply (fun data s => render (normalize (elements data)) s) s in
  showLoading false (try_catch body loadPizzaPlaces_catch).

(** [loadPizzaPlaces] from the [await] of its Python API branch on
    (lines 375-391). *)
Definition loadPizzaPlaces_resume_api (reply : Reply PlacesEnvelope)
    (s : State) : State :=
  let body :=
    await reply (fun data s =>
      if negb (truthy (pe_success data)) then
        Normal (updateStatus ("Error: " +:+ ToString (pe_error data)) "error" s)
      else render (pe_places data) s) s in
  showLoading false (try_catch body loadPizzaPlaces_catch).

(** Lines 491-496. *)
Definition updateLocation (lat lng : JsVal) (s : State) : Completion :=
  let s := set_center lat lng s in
  and_then (setView lat lng 12 s) (fun s =>
  Normal (loadPizzaPlaces s)).

(** [searchCity] up to its [await] (lines 448-465 and 473-475). *)
Definition searchCity (value : string) (s : State) : State :=
  let cityName := trim value in
  if negb (truthy (JStr cityName)) then
    updateStatus "Please enter a city name" "error" s
  else
    let s := updateStatus "Searching for city..." "" s in
    if direct_overpass then
      fetch (GetNominatim cityName "PizzaHuntApp/1.0 (email@example.com)") s
    else
      fetch (GetSearchCity API_BASE cityName) s.

Definition searchCity_catch (error : JsError) (s : State) : State :=
  let s := console_error "City search error:" error s in
  updateStatus ("City search error: " +:+ message error) "error" s.

(** [searchCity] from the [await] of its Nominatim branch on (lines
    466-470, 482-485).  [!data.length] holds of the empty array only. *)
Definition searchCity_resume_nominatim (reply : Reply (list Match)) (s : State)
    : State :=
  let body :=
    await reply (fun data s =>
      match data with
      | [] => Throw (new_Error (JStr "City not found")) s
      | first :: _ =>
          and_then (updateLocation (parseFloat (n_lat first))
                                   (parseFloat (n_lon first)) s) (fun s =>
          Normal (updateStatus ("Found " +:+ ToString (n_display_name first))
                               "success" s))
      end) s in
  try_catch body searchCity_catch.

(** [searchCity] from the [await] of its Python API branch on (lines
    476-485). *)
Definition searchCity_resume_api (reply : Reply CityEnvelope) (s : State)
    : State :=
  let body :=
    await reply (fun data s =>
      if negb (truthy (ce_success data)) then
        Throw (new_Error (ce_error data)) s
      else
        and_then (updateLocation (ce_lat data) (ce_lng data) s) (fun s =>
        Normal (updateStatus ("Found " +:+ ToString (ce_city data)) "success" s))) s in
  try_catch body searchCity_catch.

(** The script from its first line to the end of its [DOMContentLoaded]
    listener (lines 232-258): the globals get their values, then
    [initMap(); loadPizzaPlaces();]; and the [keypress] listener it
    installs. *)
Definition DOMContentLoaded (s : State) : State :=
  let s := set_center (JNum 52.52) (JNum 13.405) s in
  uncaught (and_then (initMap s) (fun s => Normal (loadPizzaPlaces s))).

Definition keypress (key value : string) (s : State) : State :=
  if String.eqb key "Enter" then searchCity value s else s.

(** What can happen once the page is loaded, as far as the text of this
    variant goes. *)
Inductive Event :=
  | KeyPressed (key value : string)
  | SearchCityCalled (value : string)
  | NominatimSettled (reply : Reply (list Match))
  | CityApiSettled (reply : Reply CityEnvelope)
  | MapMoved (lat lng : JsVal) (zoom : float)
  | OverpassSettled (reply : Reply OverpassData)
  | PlacesApiSettled (reply : Reply PlacesEnvelope).

Definition handle (e : Event) (s : State) : State :=
  match e with
  | KeyPressed key value => keypress key value s
  | SearchCityCalled value => searchCity value s
  | NominatimSettled reply => searchCity_resume_nominatim reply s
  | CityApiSettled reply => searchCity_resume_api reply s
  | MapMoved lat lng zoom => set_view lat lng zoom s
  | OverpassSettled reply => loadPizzaPlaces_resume_overpass reply s
  | PlacesApiSettled reply => loadPizzaPlaces_resume_api reply s
  end.

Definition run (events : list Event) (s : State) : State :=
  fold_left (fun s e => handle e s) events s.

(** The events that can put markers on the map, that can move the centre,
    and the one that is the user's own doing. *)
Definition may_render (e : Event) : bool :=
  match e with
  | OverpassSettled (JsonParsed _) | PlacesApiSettled (JsonParsed _) => true
  | _ => false
  end.

Definition may_recentre (e : Event) : bool :=
  match e with
  | NominatimSettled (JsonParsed _) | CityApiSettled (JsonParsed _) => true
  | _ => false
  end.

Definition is_map_move (e : Event) : bool :=
  match e with
  | MapMoved _ _ _ => true
  | _ => false
  end.

End Script.
End Hybrid.

(** ** Variant 3: Overpass/Nominatim only (lines 499-772) *)
Module OverpassOnly.
Section Script.
Context {rt : JsRuntime} {mw : MapWidget}.

(** [element.tags?.key] *)
Definition optional_tag (tags : option (gmap string JsVal)) (key : string)
    : JsVal :=
  match tags with
  | Some t => tag t key
  | None => JUndefined
  end.

(** The arrow function of lines 595-606; the object has neither [id] nor
    [cuisine]. *)
Definition normalizeElement (element : Element) : Place :=
  {| p_id := JUndefined;
     p_lat := el_lat element;
     p_lng := el_lon element;
     p_name := js_or (optional_tag (el_tags element) "name") (JStr "Pizza Place");
     p_cuisine := JUndefined;
     p_amenity := js_or (optional_tag (el_tags element) "amenity")
                        (JStr "restaurant");
     p_address := JStr (buildAddress (default ∅ (el_tags element)));
     p_phone := js_or (optional_tag (el_tags element) "phone") (JStr "");
     p_website := js_or (optional_tag (el_tags element) "website") (JStr "");
     p_opening_hours :=
       js_or (optional_tag (el_tags element) "opening_hours") (JStr "");
     p_takeaway := js_or (optional_tag (el_tags element) "takeaway") (JStr "");
     p_delivery := js_or (optional_tag (el_tags element) "delivery") (JStr "") |}.

(** [data.elements.map(..)] (lines 595-606). *)
Definition normalize (els : list Element) : list Place :=
  map normalizeElement els.

(** [loadPizzaPlaces] up to its [await] (lines 569-592). *)
Definition loadPizzaPlaces (s : State) : State :=
  let s := showLoading true s in
  let s := updateStatus "Loading pizza places..." "" s in
  fetch (PostOverpass "https://overpass-api.de/api/interpreter"
           (currentLat s) (currentLng s) false) s.

Definition loadPizzaPlaces_catch (error : JsError) (s : State) : State :=
  let s := console_error "Error loading pizza places:" error s in
  updateStatus ("Error: " +:+ message error) "error" s.

(** [loadPizzaPlaces] from its [await] on (lines 594-616). *)
Definition loadPizzaPlaces_resume (reply : Reply OverpassData) (s : State)
    : State :=
  let body :=
    await reply (fun data s =>
      let places := normalize (elements data) in
      and_then (addPizzaMarkers places s) (fun s =>
      Normal (updateStatus
                ("Found " +:+ pretty (length places) +:+ " pizza places!")
                "success" s))) s in
  showLoading false (try_catch body loadPizzaPlaces_catch).

(** Lines 727-732. *)
Definition updateLocation (lat lng : JsVal) (s : State) : Completion :=
  let s := set_center lat lng s in
  and_then (setView lat lng 12 s) (fun s =>
  Normal (loadPizzaPlaces s)).

(** [searchCity] up to its [await] (lines 690-711). *)
Definition searchCity (value : string) (s : State) : State :=
  let cityName := trim value in
  if negb (truthy (JStr cityName)) then
    updateStatus "Please enter a city name" "error" s
  else
    let s := updateStatus "Searching for city..." "" s in
    fetch (GetNominatim cityName "PizzaHuntApp/1.0") s.

Definition searchCity_catch (error : JsError) (s : State) : State :=
  let s := console_error "City search error:" error s in
  updateStatus ("City search error: " +:+ message error) "error" s.

(** [searchCity] from its [await] on (lines 712-725).  [data.length > 0]
    holds of every array but the empty one. *)
Definition searchCity_resume (reply : Reply (list Match)) (s : State) : State :=
  let body :=
    await reply (fun data s =>
      match data with
      | result :: _ =>
          and_then (updateLocation (parseFloat (n_lat result))
                                   (parseFloat (n_lon result)) s) (fun s =>
          Normal (updateStatus ("Found " +:+ ToString (n_display_name result))
                               "success" s))
      | [] => Normal (updateStatus "City not found" "error" s)
      end) s in
  try_catch body searchCity_catch.

(** [useCurrentLocation] (lines 734-750) and its two callbacks. *)
Definition useCurrentLocation (geolocation : bool) (s : State) : State :=
  if geolocation then updateStatus "Getting your location..." "" s
  else updateStatus "Geolocation not supported" "error" s.

Definition useCurrentLocation_success (latitude longitude : JsVal) (s : State)
    : State :=
  uncaught (updateLocation latitude longitude s).

Definition useCurrentLocation_error (error : JsError) (s : State) : State :=
  let s := console_error "Geolocation error:" error s in
  updateStatus "Location access denied" "error" s.

(** Lines 752-772. *)
Definition searchCurrentArea (s : State) : State :=
  let center := mapCenter s in
  let zoom := mapZoom s in
  if (zoom <? 10)%float then
    updateStatus "Please zoom in more to search a smaller area" "error" s
  else
    let s := updateStatus "Searching pizza places in current area..." "" s in
    let s := set_center (fst center) (snd center) s in
    loadPizzaPlaces s.

(** The script from its first line to the end of its [DOMContentLoaded]
    listener (lines 503-527): the globals get their values, then
    [initMap(); loadPizzaPlaces();]; and the [keypress] listener it
    installs. *)
Definition DOMContentLoaded (s : State) : State :=
  let s := set_center (JNum 52.52) (JNum 13.405) s in
  uncaught (and_then (initMap s) (fun s => Normal (loadPizzaPlaces s))).

Definition keypress (key value : string) (s : State) : State :=
  if String.eqb key "Enter" then searchCity value s else s.

(** What can happen once the page is loaded. *)
Inductive Event :=
  | KeyPressed (key value : string)
  | SearchCityCalled (value : string)
  | CitySettled (reply : Reply (list Match))
  | UseCurrentLocationCalled (geolocation : bool)
  | PositionFound (latitude longitude : JsVal)
  | PositionFailed (error : JsError)
  | SearchCurrentAreaCalled
  | MapMoved (lat lng : JsVal) (zoom : float)
  | PlacesSettled (reply : Reply OverpassData).

Definition handle (e : Event) (s : State) : State :=
  match e with
  | KeyPressed key value => keypress key value s
  | SearchCityCalled value => searchCity value s
  | CitySettled reply => searchCity_resume reply s
  | UseCurrentLocationCalled geolocation => useCurrentLocation geolocation s
  | PositionFound latitude longitude =>
      useCurrentLocation_success latitude longitude s
  | PositionFailed error => useCurrentLocation_error error s
  | SearchCurrentAreaCalled => searchCurrentArea s
  | MapMoved lat lng zoom => set_view lat lng zoom s
  | PlacesSettled reply => loadPizzaPlaces_resume reply s
  end.

Definition run (events : list Event) (s : State) : State :=
  fold_left (fun s e => handle e s) events s.

(** The events that can put markers on the map, that can move the centre,
    and the one that is the user's own doing. *)
Definition may_render (e : Event) : bool :=
  match e with
  | PlacesSettled (JsonParsed _) => true
  | _ => false
  end.

Definition may_recentre (e : Event) : bool :=
  match e with
  | CitySettled (JsonParsed _) | PositionFound _ _ | SearchCurrentAreaCalled => true
  | _ => false
  end.

Definition is_map_move (e : Event) : bool :=
  match e with
  | MapMoved _ _ _ => true
  | _ => false
  end.

End Script.
End OverpassOnly.

(** ** Values for the worked examples *)

(** A runtime that reads the two coordinate texts of the Berlin example
    and finds no number in the text [abc]; no example prints a number or
    reads another text. *)
Definition example_runtime : JsRuntime :=
  {| NumberToString := fun _ => "0";
     StringToFloat := fun text =>
       if String.eqb text "52.5170365" then 52.5170365%float
       else if String.eqb text "13.3888599" then 13.3888599%float
       else if String.eqb text "abc" then nan
       else 0%float |}.

(** A widget that accepts two numbers that are not [NaN], keeps them as
    they are, and throws for everything else. *)
Definition example_toLatLng (lat lng : JsVal) : option (JsVal * JsVal) :=
  match lat, lng with
  | JNum x, JNum y =>
      if is_nan x || is_nan y then None else Some (JNum x, JNum y)
  | _, _ => None
  end.

Definition example_widget : MapWidget :=
  {| toLatLng := example_toLatLng;
     LatLngError := fun lat lng =>
       {| err_name := PlainError;
          message := "Invalid LatLng object: ("
                     +:+ ToString (rt := example_runtime) lat +:+ ", "
                     +:+ ToString (rt := example_runtime) lng +:+ ")" |};
     toLatLng_number := ltac:(intros x y; unfold example_toLatLng, is_finite;
                              destruct (is_nan x), (is_nan y);
                              simpl; intros Hx Hy;
                              (discriminate || reflexivity)) |}.

(** What Nominatim answers for Berlin. *)
Definition berlin : Match :=
  {| n_lat := JStr "52.5170365"; n_lon := JStr "13.3888599";
     n_display_name := JStr "Berlin, Deutschland" |}.

(** A match whose latitude is not the text of a number. *)
Definition unreadable_match : Match :=
  {| n_lat := JStr "abc"; n_lon := JStr "13.3888599";
     n_display_name := JStr "Nowhere" |}.

(** A node with its own coordinates, a way with a centre only, an element
    with neither, and a node on the equator. *)
Definition node_element : Element :=
  {| el_id := JNum 1; el_lat := JNum 52.51; el_lon := JNum 13.4;
     el_center := None;
     el_tags := Some {["name" := JStr "Pizzeria Uno"]} |}.

Definition way_element : Element :=
  {| el_id := JNum 2; el_lat := JUndefined; el_lon := JUndefined;
     el_center := Some {| c_lat := JNum 52.53; c_lon := JNum 13.41 |};
     el_tags := None |}.

Definition bare_element : Element :=
  {| el_id := JNum 3; el_lat := JUndefined; el_lon := JUndefined;
     el_center := None; el_tags := None |}.

Definition equator_element : Element :=
  {| el_id := JNum 4; el_lat := JNum 0; el_lon := JNum 13.4;
     el_center := None; el_tags := None |}.

(** A state with one marker on the map. *)
Definition state_with_marker : State :=
  set_markers
    [marker_of (Hybrid.placeOf (rt := example_runtime) node_element
                  (JNum 52.51) (JNum 13.4))]
    initial_state.

(** Two overlapping fetches: A finds one place, B finds none. *)
Definition response_A : OverpassData := {| elements := [node_element] |}.
Definition response_B : OverpassData := {| elements := [] |}.

Definition envelope_A : PlacesEnvelope :=
  {| pe_success := JBool true;
     pe_places := [Hybrid.placeOf (rt := example_runtime) node_element
                     (JNum 52.51) (JNum 13.4)];
     pe_error := JUndefined |}.

Definition envelope_B : PlacesEnvelope :=
  {| pe_success := JBool true; pe_places := []; pe_error := JUndefined |}.

(** A place that offers takeaway. *)
Definition takeaway_place : Place :=
  Hybrid.placeOf (rt := example_runtime)
    {| el_id := JNum 5; el_lat := JNum 52.5; el_lon := JNum 13.3;
       el_center := None;
       el_tags := Some {["takeaway" := JStr "yes"]} |}
    (JNum 52.5) (JNum 13.3).

(** ** Notions the properties are stated with *)

(** A query that is empty or made of white space only. *)
Fixpoint whitespace_only (s : string) : bool :=
  match s with
  | EmptyString => true
  | String c r => isWhiteSpace c && whitespace_only r
  end.

(** The address in words: the components that are present, in the order
    housenumber, street, city, with [", "] between two neighbours and
    nowhere else. *)
Definition address_of_components (housenumber street city : option string)
    : string :=
  match housenumber, street, city with
  | Some h, Some st, Some c => h +:+ ", " +:+ st +:+ ", " +:+ c
  | Some h, Some st, None => h +:+ ", " +:+ st
  | Some h, None, Some c => h +:+ ", " +:+ c
  | None, Some st, Some c => st +:+ ", " +:+ c
  | Some h, None, None => h
  | None, Some st, None => st
  | None, None, Some c => c
  | None, None, None => ""
  end.

(** The text of a tag, if the tag is there and not empty. *)
Definition component {rt : JsRuntime} (tags : gmap string JsVal) (key : string)
    : option string :=
  if truthy (tag tags key) then Some (ToString (tag tags key)) else None.

(** An element has a field when reading it does not give [undefined]. *)
Definition has_field (v : JsVal) : bool :=
  match v with
  | JUndefined => false
  | _ => true
  end.

(** An element lacking both direct coordinates and a centre. *)
Definition lacks_coordinates (el : Element) : bool :=
  negb (has_field (el_lat el) && has_field (el_lon el))
  && match el_center el with Some _ => false | None => true end.

(** A coordinate that is absent, or present and truthy. *)
Definition absent_or_truthy (v : JsVal) : bool := negb (has_field v) || truthy v.

(** A coordinate that is the number zero ([0] or [-0]). *)
Definition is_zero_number (v : JsVal) : bool :=
  match v with
  | JNum x => is_zero x
  | _ => false
  end.

Fixpoint count_where {A} (f : A -> bool) (l : list A) : nat :=
  match l with
  | [] => 0
  | x :: r => (if f x then 1 else 0) + count_where f r
  end.

(** The centre was replaced by [(lat, lng)] and exactly one network call
    was issued, a place request about that centre. *)
Definition recentred_with_one_fetch (lat lng : JsVal) (before after : State)
    : Prop :=
  currentLat after = lat /\
  currentLng after = lng /\
  exists req, sent after = sent before ++ [req] /\
              request_center req = Some (lat, lng).

(** The message of a reply that is a failure of the transport or of the
    JSON parse. *)
Definition rejected_with {A} (reply : Reply A) : option string :=
  match reply with
  | FetchRejected msg | JsonRejected msg => Some msg
  | JsonParsed _ => None
  end.

(** The failed load is reported in the status line, the overlay is hidden
    and the markers are those shown before. *)
Definition load_error_reported (msg : string) (before after : State) : Prop :=
  statusText after = "Error: " +:+ msg /\
  statusClass after = "status error" /\
  loadingShown after = false /\
  markerCluster after = markerCluster before /\
  sent after = sent before.

(** White space at the start, at the end of a text. *)
Definition starts_with_whitespace (s : string) : bool :=
  match s with
  | EmptyString => false
  | String c _ => isWhiteSpace c
  end.

Fixpoint ends_with_whitespace (s : string) : bool :=
  match s with
  | EmptyString => false
  | String c r =>
      match r with
      | EmptyString => isWhiteSpace c
      | _ => ends_with_whitespace r
      end
  end.

(** What a settled load leaves alone: the calls issued, the centre and the
    view of the map; and the overlay is hidden. *)
Definition load_settled_quietly (before after : State) : Prop :=
  sent after = sent before /\
  currentLat after = currentLat before /\
  currentLng after = currentLng before /\
  mapCenter after = mapCenter before /\
  mapZoom after = mapZoom before /\
  loadingShown after = false.

(** The status line announces as many places as there are markers. *)
Definition count_announced (s : State) : Prop :=
  statusText s
  = ("Found " +:+ (pretty (length (markerCluster s)) +:+ " pizza places!")).

(** An optional field of a place: the tag's value when that is truthy, the
    empty string otherwise. *)
Definition tag_or_empty (source field : JsVal) : Prop :=
  field = JStr "" \/ (field = source /\ truthy source = true).

(** What a place made from an element always has: a name and a category
    that are truthy, an address that is a string, and optional fields that
    are the tag or empty. *)
Definition safe_defaults (tags : gmap string JsVal) (p : Place) : Prop :=
  truthy (p_name p) = true /\
  truthy (p_amenity p) = true /\
  (exists text, p_address p = JStr text) /\
  tag_or_empty (tag tags "phone") (p_phone p) /\
  tag_or_empty (tag tags "website") (p_website p) /\
  tag_or_empty (tag tags "opening_hours") (p_opening_hours p) /\
  tag_or_empty (tag tags "takeaway") (p_takeaway p) /\
  tag_or_empty (tag tags "delivery") (p_delivery p).

(** Two places that show the same on the map: same position, same
    tooltip, same popup.  The [id] and [cuisine] fields are not shown. *)
Definition same_display (p q : Place) : Prop :=
  m_latlng (marker_of p) = m_latlng (marker_of q) /\
  m_tooltip (marker_of p) = m_tooltip (marker_of q) /\
  createPopupContent p = createPopupContent q.

(** The tags [buildAddress] reads. *)
Definition address_keys : list string :=
  ["addr:housenumber"; "addr:street"; "addr:city"].

(** The centre of the last place request among the calls issued. *)
Definition last_place_centre (reqs : list Request) : option (JsVal * JsVal) :=
  fold_left (fun found r => match request_center r with
                            | Some centre => Some centre
                            | None => found
                            end) reqs None.

(** The last place request issued is about the current centre. *)
Definition centre_requested (s : State) : Prop :=
  last_place_centre (sent s) = Some (currentLat s, currentLng s).




(** One event issues at most one network call and withdraws none. *)
Definition at_most_one_call (before after : State) : Prop :=
  sent after = sent before
  \/ exists req, sent after = sent before ++ [req].

(** The value a piece of the popup prints is truthy (a badge prints no
    value). *)
Definition piece_value_truthy (piece : PopupPiece) : Prop :=
  match piece with
  | PopupTitle v | PopupInfo _ v | PopupWebsite v => truthy v = true
  | PopupBadge _ => True
  end.

(** A call to the Python API at [base]; a call to the Overpass interpreter
    at [endpoint] or to Nominatim. *)
Definition goes_to_python (base : string) (r : Request) : Prop :=
  match r with
  | GetPizzaPlaces b _ _ | GetSearchCity b _ => b = base
  | PostOverpass _ _ _ _ | GetNominatim _ _ => False
  end.

Definition goes_to_osm (endpoint : string) (r : Request) : Prop :=
  match r with
  | PostOverpass e _ _ _ => e = endpoint
  | GetNominatim _ _ => True
  | GetPizzaPlaces _ _ _ | GetSearchCity _ _ => False
  end.

(** A city search that failed: nothing but the status line (and the
    console) changed, and the status is an error. *)
Definition search_failed_quietly (before after : State) : Prop :=
  sent after = sent before /\
  currentLat after = currentLat before /\
  currentLng after = currentLng before /\
  mapCenter after = mapCenter before /\
  mapZoom after = mapZoom before /\
  markerCluster after = markerCluster before /\
  loadingShown after = loadingShown before /\
  statusClass after = "status error".


(** The places of a list that get a marker: those before the first one
    whose coordinates the widget does not accept. *)
Fixpoint renderable {mw : MapWidget} (places : list Place) : list Place :=
  match places with
  | [] => []
  | place :: rest =>
      if map_accepts (p_lat place) (p_lng place)
      then place :: renderable rest
      else []
  end.

(** The widget accepts the coordinates of every place. *)
Definition all_accepted {mw : MapWidget} (places : list Place) : Prop :=
  Forall (fun place => map_accepts (p_lat place) (p_lng place) = true) places.

(** The widget keeps the coordinates as they are given. *)
Definition kept_as_given {mw : MapWidget} (lat lng : JsVal) : Prop :=
  toLatLng lat lng = Some (lat, lng).

(** The position an event brings, if it brings one that the script hands
    to [updateLocation]. *)
Definition python_position {rt : JsRuntime} (e : PythonApi.Event)
    : option (JsVal * JsVal) :=
  match e with
  | PythonApi.PositionFound latitude longitude => Some (latitude, longitude)
  | PythonApi.CitySettled (JsonParsed data) =>
      if truthy (ce_success data) then Some (ce_lat data, ce_lng data) else None
  | _ => None
  end.

Definition hybrid_position {rt : JsRuntime} (e : Hybrid.Event)
    : option (JsVal * JsVal) :=
  match e with
  | Hybrid.NominatimSettled (JsonParsed (first :: _)) =>
      Some (parseFloat (n_lat first), parseFloat (n_lon first))
  | Hybrid.CityApiSettled (JsonParsed data) =>
      if truthy (ce_success data) then Some (ce_lat data, ce_lng data) else None
  | _ => None
  end.

Definition overpass_position {rt : JsRuntime} (e : OverpassOnly.Event)
    : option (JsVal * JsVal) :=
  match e with
  | OverpassOnly.PositionFound latitude longitude => Some (latitude, longitude)
  | OverpassOnly.CitySettled (JsonParsed (first :: _)) =>
      Some (parseFloat (n_lat first), parseFloat (n_lon first))
  | _ => None
  end.

(** The widget accepts the position, if there is one; it keeps it as it
    is given. *)
Definition position_accepted {mw : MapWidget} (position : option (JsVal * JsVal))
    : Prop :=
  match position with
  | Some (lat, lng) => map_accepts lat lng = true
  | None => True
  end.

Definition position_kept {mw : MapWidget} (position : option (JsVal * JsVal))
    : Prop :=
  match position with
  | Some (lat, lng) => kept_as_given lat lng
  | None => True
  end.

(** ** Lemmas on the shared operations *)

Lemma trimStart_whitespace_only (s : string) :
  whitespace_only s = true -> trimStart s = "".
Proof.
  induction s as [|c r IH]; simpl; [reflexivity|].
  intros [Hc Hr]%andb_true_iff. rewrite Hc. exact (IH Hr).
Qed.

Lemma trim_whitespace_only (s : string) :
  whitespace_only s = true -> trim s = "".
Proof.
  intros H. unfold trim. rewrite (trimStart_whitespace_only s H). reflexivity.
Qed.

Section MarkerLemmas.
Context {mw : MapWidget}.

Lemma addMarkers_state (places : list Place) (s : State) :
  uncaught (addMarkers places s)
  = set_markers (markerCluster s ++ map marker_of (renderable places)) s.
Proof.
  revert s. induction places as [|p ps IH]; intros s; simpl.
  - rewrite app_nil_r. by destruct s.
  - unfold map_accepts. destruct (toLatLng (p_lat p) (p_lng p)); simpl.
    + rewrite IH. unfold addLayer, set_markers. simpl. by rewrite <- app_assoc.
    + rewrite app_nil_r. by destruct s.
Qed.

Lemma addMarkers_Normal (places : list Place) (s after : State) :
  addMarkers places s = Normal after -> renderable places = places.
Proof.
  revert s. induction places as [|p ps IH]; intros s; simpl; [done|].
  unfold map_accepts. destruct (toLatLng (p_lat p) (p_lng p)); [|discriminate].
  intros H. by rewrite (IH _ H).
Qed.

Lemma renderable_all (places : list Place) :
  all_accepted places -> renderable places = places.
Proof.
  induction 1 as [|p ps Hp _ IH]; simpl; [done|]. by rewrite Hp, IH.
Qed.

Lemma addMarkers_accepted (places : list Place) (s : State) :
  all_accepted places -> exists after, addMarkers places s = Normal after.
Proof.
  intros H. revert s. induction H as [|p ps Hp _ IH]; intros s; simpl.
  - by eexists.
  - unfold map_accepts in Hp.
    destruct (toLatLng (p_lat p) (p_lng p)); [apply IH|discriminate].
Qed.

Lemma addPizzaMarkers_uncaught (places : list Place) (s : State) :
  uncaught (addPizzaMarkers places s)
  = set_markers (map marker_of (renderable places)) s.
Proof. unfold addPizzaMarkers. by rewrite addMarkers_state. Qed.

Lemma addPizzaMarkers_Normal (places : list Place) (s after : State) :
  addPizzaMarkers places s = Normal after ->
  after = set_markers (map marker_of places) s.
Proof.
  intros H. pose proof (addPizzaMarkers_uncaught places s) as Hu.
  rewrite H in Hu. simpl in Hu.
  unfold addPizzaMarkers in H. by rewrite (addMarkers_Normal _ _ _ H) in Hu.
Qed.

Lemma addPizzaMarkers_Throw (places : list Place) (s after : State)
    (error : JsError) :
  addPizzaMarkers places s = Throw error after ->
  after = set_markers (map marker_of (renderable places)) s.
Proof.
  intros H. pose proof (addPizzaMarkers_uncaught places s) as Hu.
  by rewrite H in Hu.
Qed.

Lemma addPizzaMarkers_accepted (places : list Place) (s : State) :
  all_accepted places ->
  addPizzaMarkers places s = Normal (set_markers (map marker_of places) s).
Proof.
  intros H. unfold addPizzaMarkers.
  destruct (addMarkers_accepted places (clearLayers s) H) as [after Ha].
  rewrite Ha. f_equal. apply (addPizzaMarkers_Normal places s after Ha).
Qed.

End MarkerLemmas.

Lemma element_text_truthy {rt : JsRuntime} (v : JsVal) :
  truthy v = true -> element_text v = ToString v.
Proof. by destruct v. Qed.

Lemma truthy_JStr (s : string) : truthy (JStr s) = false <-> s = "".
Proof.
  simpl. rewrite negb_false_iff. apply String.eqb_eq.
Qed.

Lemma or_empty (s : string) : (if truthy (JStr s) then s else "") = s.
Proof.
  destruct (truthy (JStr s)) eqn:E; [done|]. by apply truthy_JStr in E.
Qed.

(** ** Properties *)

Section Properties.
Context {rt : JsRuntime}.

(** C2. [buildAddress] joins the housenumber, street and city tags, in
    that order, with [", "], and puts a separator only between two
    components that are there: all three give
    ["10, Main St, Springfield"], the city alone gives ["Springfield"],
    none gives the empty string, and in general the result is the table
    [address_of_components] read at the components present, where a tag
    holding a string is present exactly when the string is not empty. *)
Theorem buildAddress_joins_present_components :
  buildAddress (<["addr:housenumber" := JStr "10"]>
                  (<["addr:street" := JStr "Main St"]>
                     {["addr:city" := JStr "Springfield"]}))
    = "10, Main St, Springfield"
  /\ buildAddress {["addr:city" := JStr "Springfield"]} = "Springfield"
  /\ buildAddress ∅ = ""
  /\ (forall tags : gmap string JsVal,
        buildAddress tags
        = address_of_components (component tags "addr:housenumber")
                                (component tags "addr:street")
                                (component tags "addr:city"))
  /\ (forall (tags : gmap string JsVal) (key text : string),
        tag tags key = JStr text ->
        component tags key = if String.eqb text "" then None else Some text).
Proof.
  split; [by vm_compute|]. split; [by vm_compute|]. split; [by vm_compute|].
  split.
  - intros tags. unfold buildAddress, push_if_present, component.
    rewrite or_empty.
    destruct (truthy (tag tags "addr:housenumber")) eqn:Hh;
      destruct (truthy (tag tags "addr:street")) eqn:Hs;
      destruct (truthy (tag tags "addr:city")) eqn:Hc; simpl;
      rewrite ?(element_text_truthy _ Hh), ?(element_text_truthy _ Hs),
        ?(element_text_truthy _ Hc); reflexivity.
  - intros tags key text H. unfold component. rewrite H. simpl.
    by destruct (String.eqb text "").
Qed.

End Properties.

Lemma buildAddress_joins_present_components_witness :
  component (rt := example_runtime)
    {["addr:city" := JStr "Springfield"]} "addr:city"
  = Some "Springfield".
Proof.
  destruct (buildAddress_joins_present_components (rt := example_runtime))
    as (_ & _ & _ & _ & H).
  exact (H {["addr:city" := JStr "Springfield"]} "addr:city" "Springfield"
           eq_refl).
Defined.

(** C5. For a query that is empty or white space only, [searchCity] shows
    the validation status ["Please enter a city name"] with severity
    [error] and does nothing else; in particular it issues no network
    call.  This holds in the three variants. *)
Theorem searchCity_rejects_blank_query
    (hostname API_BASE value : string) (s : State) :
  whitespace_only value = true ->
  PythonApi.searchCity hostname value s
    = updateStatus "Please enter a city name" "error" s
  /\ Hybrid.searchCity API_BASE value s
    = updateStatus "Please enter a city name" "error" s
  /\ OverpassOnly.searchCity value s
    = updateStatus "Please enter a city name" "error" s
  /\ sent (updateStatus "Please enter a city name" "error" s) = sent s.
Proof.
  intros H.
  unfold PythonApi.searchCity, Hybrid.searchCity, OverpassOnly.searchCity.
  rewrite (trim_whitespace_only value H). simpl. done.
Qed.

Lemma searchCity_rejects_blank_query_witness :
  whitespace_only "   " = true
  /\ OverpassOnly.searchCity "   " initial_state
     = updateStatus "Please enter a city name" "error" initial_state.
Proof.
  split; [reflexivity|].
  destruct (searchCity_rejects_blank_query "localhost" Hybrid.shipped_API_BASE
              "   " initial_state eq_refl) as (_ & _ & H & _).
  exact H.
Defined.

(** C10. When [searchCurrentArea] runs while the zoom level of the map is
    below 10, it shows the status ["Please zoom in more to search a smaller
    area"] with severity [error] and does nothing else: [currentLat] and
    [currentLng] keep their values and no network call is issued.  This
    holds in the two variants that have the function. *)
Theorem searchCurrentArea_rejects_low_zoom (hostname : string) (s : State) :
  (mapZoom s <? 10)%float = true ->
  PythonApi.searchCurrentArea hostname s
    = updateStatus "Please zoom in more to search a smaller area" "error" s
  /\ OverpassOnly.searchCurrentArea s
    = updateStatus "Please zoom in more to search a smaller area" "error" s
  /\ currentLat (OverpassOnly.searchCurrentArea s) = currentLat s
  /\ currentLng (OverpassOnly.searchCurrentArea s) = currentLng s
  /\ sent (OverpassOnly.searchCurrentArea s) = sent s
  /\ currentLat (PythonApi.searchCurrentArea hostname s) = currentLat s
  /\ currentLng (PythonApi.searchCurrentArea hostname s) = currentLng s
  /\ sent (PythonApi.searchCurrentArea hostname s) = sent s.
Proof.
  intros H.
  unfold PythonApi.searchCurrentArea, OverpassOnly.searchCurrentArea.
  cbv zeta. rewrite H. repeat split.
Qed.

Lemma searchCurrentArea_rejects_low_zoom_witness :
  (mapZoom (set_view (JNum 52.52) (JNum 13.405) 9 initial_state) <? 10)%float
  = true
  /\ sent (OverpassOnly.searchCurrentArea
             (set_view (JNum 52.52) (JNum 13.405) 9 initial_state)) = [].
Proof.
  split; [reflexivity|].
  destruct (searchCurrentArea_rejects_low_zoom "localhost"
              (set_view (JNum 52.52) (JNum 13.405) 9 initial_state) eq_refl)
    as (_ & _ & _ & _ & H & _).
  exact H.
Defined.

Section ErrorPaths.
Context {rt : JsRuntime} {mw : MapWidget}.

(** C3. A Python API response whose envelope has [success: false] and
    [error: "x"] makes [loadPizzaPlaces] show the status ["Error: x"] with
    severity [error] and hide the overlay, and nothing else:
    [addPizzaMarkers] is not reached, so whatever [places] the envelope
    carries, the marker cluster is the one from before.  This holds in the
    Python API variant and in the Python API branch of the hybrid one. *)
Theorem failed_envelope_is_reported_not_rendered
    (x : string) (places : list Place) (s : State) :
  PythonApi.loadPizzaPlaces_resume
      (JsonParsed {| pe_success := JBool false; pe_places := places;
                     pe_error := JStr x |}) s
    = showLoading false (updateStatus ("Error: " +:+ x) "error" s)
  /\ Hybrid.loadPizzaPlaces_resume_api
      (JsonParsed {| pe_success := JBool false; pe_places := places;
                     pe_error := JStr x |}) s
    = showLoading false (updateStatus ("Error: " +:+ x) "error" s)
  /\ markerCluster (showLoading false (updateStatus ("Error: " +:+ x) "error" s))
    = markerCluster s
  /\ statusText (showLoading false (updateStatus ("Error: " +:+ x) "error" s))
    = "Error: " +:+ x.
Proof. repeat split. Qed.

(** C4. When the request of [loadPizzaPlaces] fails or its response is not
    JSON, the message of the failure is shown in the status line as
    ["Error: <message>"] with severity [error], the overlay is hidden, and
    the marker cluster is the one from before: the call itself does not
    touch the markers, and the failure path does not either.  This holds in
    the three variants, for both branches of the hybrid one. *)
Theorem network_failure_keeps_markers
    (hostname API_BASE msg : string)
    (api_reply : Reply PlacesEnvelope) (overpass_reply : Reply OverpassData)
    (s : State) :
  rejected_with api_reply = Some msg ->
  rejected_with overpass_reply = Some msg ->
  markerCluster (PythonApi.loadPizzaPlaces hostname s) = markerCluster s
  /\ markerCluster (Hybrid.loadPizzaPlaces API_BASE s) = markerCluster s
  /\ markerCluster (OverpassOnly.loadPizzaPlaces s) = markerCluster s
  /\ load_error_reported msg s (PythonApi.loadPizzaPlaces_resume api_reply s)
  /\ load_error_reported msg s (Hybrid.loadPizzaPlaces_resume_api api_reply s)
  /\ load_error_reported msg s
       (Hybrid.loadPizzaPlaces_resume_overpass overpass_reply s)
  /\ load_error_reported msg s (OverpassOnly.loadPizzaPlaces_resume overpass_reply s).
Proof.
  intros Ha Ho. split; [reflexivity|]. split.
  { unfold Hybrid.loadPizzaPlaces. by destruct (Hybrid.direct_overpass API_BASE). }
  split; [reflexivity|].
  destruct api_reply as [m|m|d]; simplify_eq/=;
    destruct overpass_reply as [m'|m'|d']; simplify_eq/=;
    repeat split.
Qed.

End ErrorPaths.

Lemma network_failure_keeps_markers_witness :
  load_error_reported "Failed to fetch" state_with_marker
    (OverpassOnly.loadPizzaPlaces_resume (rt := example_runtime)
       (mw := example_widget)
       (FetchRejected "Failed to fetch") state_with_marker).
Proof.
  destruct (network_failure_keeps_markers (rt := example_runtime)
              (mw := example_widget) "localhost" Hybrid.shipped_API_BASE "Failed to fetch"
              (JsonRejected "Failed to fetch") (FetchRejected "Failed to fetch")
              state_with_marker eq_refl eq_refl)
    as (_ & _ & _ & _ & _ & _ & H).
  exact H.
Defined.

Section CitySearch.
Context {rt : JsRuntime} {mw : MapWidget}.

(** C7. When the geocoding request of [searchCity] returns no match, the
    search ends with an error status that reads "City not found": the
    status ["City not found"] in the Overpass-only variant, and
    ["City search error: City not found"] in the hybrid one, where an
    [Error] with that message is thrown and caught.  No location update
    and no network call follow.  A failure of the transport or of the JSON
    parse ends differently: its status is ["City search error: <message>"],
    which differs from ["City not found"] for every message, and the error
    caught is a [TypeError] or a [SyntaxError], never the plain [Error]
    thrown for the empty answer. *)
Theorem no_match_is_reported_as_not_found (API_BASE msg : string) (s : State) :
  OverpassOnly.searchCity_resume (JsonParsed []) s
    = updateStatus "City not found" "error" s
  /\ statusText (OverpassOnly.searchCity_resume (FetchRejected msg) s)
     = "City search error: " +:+ msg
  /\ statusText (OverpassOnly.searchCity_resume (JsonRejected msg) s)
     = "City search error: " +:+ msg
  /\ statusText (OverpassOnly.searchCity_resume (JsonParsed []) s)
     <> statusText (OverpassOnly.searchCity_resume (FetchRejected msg) s)
  /\ statusText (OverpassOnly.searchCity_resume (JsonParsed []) s)
     <> statusText (OverpassOnly.searchCity_resume (JsonRejected msg) s)
  /\ Hybrid.searchCity_resume_nominatim API_BASE (JsonParsed []) s
     = updateStatus "City search error: City not found" "error"
         (console_error "City search error:"
            {| err_name := PlainError; message := "City not found" |} s)
  /\ Hybrid.searchCity_resume_nominatim API_BASE (FetchRejected msg) s
     = updateStatus ("City search error: " +:+ msg) "error"
         (console_error "City search error:"
            {| err_name := TypeError; message := msg |} s)
  /\ Hybrid.searchCity_resume_nominatim API_BASE (JsonRejected msg) s
     = updateStatus ("City search error: " +:+ msg) "error"
         (console_error "City search error:"
            {| err_name := SyntaxError; message := msg |} s)
  /\ Hybrid.searchCity_resume_nominatim API_BASE (JsonParsed []) s
     <> Hybrid.searchCity_resume_nominatim API_BASE (FetchRejected msg) s
  /\ Hybrid.searchCity_resume_nominatim API_BASE (JsonParsed []) s
     <> Hybrid.searchCity_resume_nominatim API_BASE (JsonRejected msg) s.
Proof.
  repeat split; try discriminate.
  - intros H. apply (f_equal errorLog) in H. simpl in H.
    apply app_inv_head in H. discriminate.
  - intros H. apply (f_equal errorLog) in H. simpl in H.
    apply app_inv_head in H. discriminate.
Qed.

Lemma updateLocation_python (hostname : string) (lat lng : JsVal) (s : State) :
  map_accepts lat lng = true ->
  exists after,
    PythonApi.updateLocation hostname lat lng s = Normal after
    /\ recentred_with_one_fetch lat lng s after.
Proof.
  unfold map_accepts, PythonApi.updateLocation, setView.
  destruct (toLatLng lat lng) as [[la ln]|]; [intros _|discriminate].
  eexists. split; [reflexivity|]. repeat split. eexists. split; reflexivity.
Qed.

Lemma updateLocation_hybrid (API_BASE : string) (lat lng : JsVal) (s : State) :
  map_accepts lat lng = true ->
  exists after,
    Hybrid.updateLocation API_BASE lat lng s = Normal after
    /\ recentred_with_one_fetch lat lng s after.
Proof.
  unfold map_accepts, Hybrid.updateLocation, Hybrid.loadPizzaPlaces, setView.
  destruct (toLatLng lat lng) as [[la ln]|]; [intros _|discriminate].
  eexists. split; [reflexivity|].
  destruct (Hybrid.direct_overpass API_BASE);
    repeat split; eexists; split; reflexivity.
Qed.

Lemma updateLocation_overpass (lat lng : JsVal) (s : State) :
  map_accepts lat lng = true ->
  exists after,
    OverpassOnly.updateLocation lat lng s = Normal after
    /\ recentred_with_one_fetch lat lng s after.
Proof.
  unfold map_accepts, OverpassOnly.updateLocation, setView.
  destruct (toLatLng lat lng) as [[la ln]|]; [intros _|discriminate].
  eexists. split; [reflexivity|]. repeat split. eexists. split; reflexivity.
Qed.

(** A status update after the fetch changes neither the centre nor the
    calls issued. *)
Lemma recentred_updateStatus (lat lng : JsVal) (msg type : string)
    (before after : State) :
  recentred_with_one_fetch lat lng before after ->
  recentred_with_one_fetch lat lng before (updateStatus msg type after).
Proof. intros H. exact H. Qed.

(** C6. Every successful location resolution, one that gives coordinates
    the map accepts, replaces [currentLat] and [currentLng] with the
    resolved coordinates and issues exactly one network call, the place
    request of [loadPizzaPlaces] about these coordinates: [updateLocation]
    itself, which then completes without an error, the success callback of
    the geolocation request, a city search whose answer is a success
    envelope (Python API) or a non-empty list of matches (Nominatim, the
    first match read with [parseFloat]), and [searchCurrentArea] when the
    zoom level is not below 10 (the coordinates are those of the map
    centre, which the map has accepted already). *)
Theorem location_update_recentres_and_fetches_once
    (hostname API_BASE : string) (lat lng : JsVal) (city : CityEnvelope)
    (first : Match) (rest : list Match) (s : State) :
  (map_accepts lat lng = true ->
   (exists after,
       PythonApi.updateLocation hostname lat lng s = Normal after
       /\ recentred_with_one_fetch lat lng s after)
   /\ (exists after,
          Hybrid.updateLocation API_BASE lat lng s = Normal after
          /\ recentred_with_one_fetch lat lng s after)
   /\ (exists after,
          OverpassOnly.updateLocation lat lng s = Normal after
          /\ recentred_with_one_fetch lat lng s after)
   /\ recentred_with_one_fetch lat lng s
        (PythonApi.useCurrentLocation_success hostname lat lng s)
   /\ recentred_with_one_fetch lat lng s
        (OverpassOnly.useCurrentLocation_success lat lng s))
  /\ (truthy (ce_success city) = true ->
      map_accepts (ce_lat city) (ce_lng city) = true ->
      recentred_with_one_fetch (ce_lat city) (ce_lng city) s
        (PythonApi.searchCity_resume hostname (JsonParsed city) s)
      /\ recentred_with_one_fetch (ce_lat city) (ce_lng city) s
           (Hybrid.searchCity_resume_api API_BASE (JsonParsed city) s))
  /\ (map_accepts (parseFloat (n_lat first)) (parseFloat (n_lon first)) = true ->
      recentred_with_one_fetch
        (parseFloat (n_lat first)) (parseFloat (n_lon first)) s
        (Hybrid.searchCity_resume_nominatim API_BASE
           (JsonParsed (first :: rest)) s)
      /\ recentred_with_one_fetch
           (parseFloat (n_lat first)) (parseFloat (n_lon first)) s
           (OverpassOnly.searchCity_resume (JsonParsed (first :: rest)) s))
  /\ ((mapZoom s <? 10)%float = false ->
      recentred_with_one_fetch (fst (mapCenter s)) (snd (mapCenter s)) s
        (PythonApi.searchCurrentArea hostname s))
  /\ ((mapZoom s <? 10)%float = false ->
      recentred_with_one_fetch (fst (mapCenter s)) (snd (mapCenter s)) s
        (OverpassOnly.searchCurrentArea s)).
Proof.
  split.
  { intros H.
    split; [by apply updateLocation_python|].
    split; [by apply updateLocation_hybrid|].
    split; [by apply updateLocation_overpass|].
    split.
    - unfold PythonApi.useCurrentLocation_success.
      destruct (updateLocation_python hostname lat lng s H) as (a & -> & Ha).
      exact Ha.
    - unfold OverpassOnly.useCurrentLocation_success.
      destruct (updateLocation_overpass lat lng s H) as (a & -> & Ha).
      exact Ha. }
  split.
  { intros H Hm. split.
    - unfold PythonApi.searchCity_resume. simpl. rewrite H. simpl.
      destruct (updateLocation_python hostname _ _ s Hm) as (a & -> & Ha).
      simpl. by apply recentred_updateStatus.
    - unfold Hybrid.searchCity_resume_api. simpl. rewrite H. simpl.
      destruct (updateLocation_hybrid API_BASE _ _ s Hm) as (a & -> & Ha).
      simpl. by apply recentred_updateStatus. }
  split.
  { intros Hm. split.
    - unfold Hybrid.searchCity_resume_nominatim. simpl.
      destruct (updateLocation_hybrid API_BASE _ _ s Hm) as (a & -> & Ha).
      simpl. by apply recentred_updateStatus.
    - unfold OverpassOnly.searchCity_resume. simpl.
      destruct (updateLocation_overpass _ _ s Hm) as (a & -> & Ha).
      simpl. by apply recentred_updateStatus. }
  split.
  - intros H. unfold PythonApi.searchCurrentArea. cbv zeta. rewrite H.
    repeat split. eexists. split; reflexivity.
  - intros H. unfold OverpassOnly.searchCurrentArea. cbv zeta. rewrite H.
    repeat split. eexists. split; reflexivity.
Qed.

End CitySearch.

Lemma location_update_recentres_and_fetches_once_witness :
  truthy (JBool true) = true
  /\ map_accepts (mw := example_widget) (JNum 48.137) (JNum 11.575) = true
  /\ map_accepts (mw := example_widget)
       (parseFloat (rt := example_runtime) (n_lat berlin))
       (parseFloat (rt := example_runtime) (n_lon berlin)) = true
  /\ (mapZoom initial_state <? 10)%float = false
  /\ recentred_with_one_fetch (JNum 52.5170365) (JNum 13.3888599) initial_state
       (OverpassOnly.searchCity_resume (rt := example_runtime)
          (mw := example_widget) (JsonParsed [berlin]) initial_state)
  /\ recentred_with_one_fetch (JNum 48.137) (JNum 11.575) initial_state
       (PythonApi.searchCity_resume (rt := example_runtime)
          (mw := example_widget) "localhost"
          (JsonParsed {| ce_success := JBool true; ce_city := JStr "Munich";
                         ce_lat := JNum 48.137; ce_lng := JNum 11.575;
                         ce_error := JUndefined |}) initial_state)
  /\ recentred_with_one_fetch (JNum 48.137) (JNum 11.575) initial_state
       (PythonApi.useCurrentLocation_success (mw := example_widget)
          "localhost" (JNum 48.137) (JNum 11.575) initial_state)
  /\ recentred_with_one_fetch (JNum 52.52) (JNum 13.405) initial_state
       (OverpassOnly.searchCurrentArea initial_state).
Proof.
  destruct (location_update_recentres_and_fetches_once (rt := example_runtime)
              (mw := example_widget)
              "localhost" Hybrid.shipped_API_BASE (JNum 48.137) (JNum 11.575)
              {| ce_success := JBool true; ce_city := JStr "Munich";
                 ce_lat := JNum 48.137; ce_lng := JNum 11.575;
                 ce_error := JUndefined |}
              berlin [] initial_state)
    as (Hloc & Hcity & Hberlin & _ & Harea).
  split; [reflexivity|]. split; [reflexivity|]. split; [reflexivity|].
  split; [reflexivity|].
  split; [exact (proj2 (Hberlin eq_refl))|].
  split; [exact (proj1 (Hcity eq_refl eq_refl))|].
  split; [|exact (Harea eq_refl)].
  destruct (Hloc eq_refl) as (_ & _ & _ & H & _). exact H.
Defined.

Section Normalisation.
Context {rt : JsRuntime} {mw : MapWidget}.

Lemma direct_test_usable (el : Element) :
  absent_or_truthy (el_lat el) = true ->
  absent_or_truthy (el_lon el) = true ->
  truthy (el_lat el) && truthy (el_lon el)
  = has_field (el_lat el) && has_field (el_lon el).
Proof.
  unfold absent_or_truthy.
  destruct (el_lat el), (el_lon el); simpl; try done;
    intros H1 H2; rewrite ?H1, ?H2; done.
Qed.

Lemma normalizeElement_None (el : Element) :
  absent_or_truthy (el_lat el) = true ->
  absent_or_truthy (el_lon el) = true ->
  Hybrid.normalizeElement el = None <-> lacks_coordinates el = true.
Proof.
  intros H1 H2.
  unfold Hybrid.normalizeElement, Hybrid.resolveCoordinates, lacks_coordinates.
  rewrite (direct_test_usable el H1 H2).
  destruct (has_field (el_lat el) && has_field (el_lon el));
    destruct (el_center el); simpl; split; intros; done.
Qed.

Lemma normalize_length (els : list Element) :
  Forall (fun el => absent_or_truthy (el_lat el) = true
                    /\ absent_or_truthy (el_lon el) = true) els ->
  length (Hybrid.normalize els) + count_where lacks_coordinates els
  = length els.
Proof.
  induction 1 as [|el els [H1 H2] _ IH]; [reflexivity|].
  unfold Hybrid.normalize in *. simpl.
  pose proof (normalizeElement_None el H1 H2) as Hn.
  destruct (Hybrid.normalizeElement el) as [p|]; simpl.
  - destruct (lacks_coordinates el); [|simpl; lia].
    destruct Hn as [_ Hn]. by specialize (Hn eq_refl).
  - destruct Hn as [Hn _]. rewrite (Hn eq_refl). simpl. lia.
Qed.

(** C1, as the code has it.  In the hybrid variant (lines 340-369), on a
    list of elements whose [lat] and [lon] are each either absent or truthy,
    an element gives no place exactly when it lacks both direct coordinates
    and a centre, and the number of places is the number of elements less
    the number of such elements.  In the Overpass-only variant (lines
    594-606) no element is left out: there are as many places as
    elements. *)
Theorem normalisation_drops_exactly_unresolved (els : list Element) :
  (Forall (fun el => absent_or_truthy (el_lat el) = true
                     /\ absent_or_truthy (el_lon el) = true) els ->
   length (Hybrid.normalize els)
     = length els - count_where lacks_coordinates els
   /\ Forall (fun el => Hybrid.normalizeElement el = None
                        <-> lacks_coordinates el = true) els)
  /\ length (OverpassOnly.normalize els) = length els.
Proof.
  split.
  - intros H. split.
    + pose proof (normalize_length els H). lia.
    + eapply Forall_impl; [exact H|]. intros el [H1 H2].
      by apply normalizeElement_None.
  - unfold OverpassOnly.normalize. by rewrite length_map.
Qed.

(** C9. In the hybrid variant the direct coordinates are tested for
    truthiness: for an element whose [lat] or [lon] is the number zero the
    direct coordinates are not used; the place gets the coordinates of the
    element's centre if there is one, and the element is left out
    otherwise. *)
Theorem zero_coordinate_is_treated_as_absent (el : Element) :
  is_zero_number (el_lat el) = true \/ is_zero_number (el_lon el) = true ->
  Hybrid.resolveCoordinates el
    = match el_center el with
      | Some center => Some (c_lat center, c_lon center)
      | None => None
      end
  /\ Hybrid.normalizeElement el
    = match el_center el with
      | Some center => Some (Hybrid.placeOf el (c_lat center) (c_lon center))
      | None => None
      end.
Proof.
  intros H.
  assert (truthy (el_lat el) && truthy (el_lon el) = false) as Hd.
  { destruct H as [H|H].
    - destruct (el_lat el); try discriminate. simpl in *. by rewrite H.
    - destruct (el_lon el); try discriminate. simpl in *. rewrite H.
      apply andb_false_r. }
  unfold Hybrid.normalizeElement, Hybrid.resolveCoordinates. rewrite Hd.
  by destruct (el_center el).
Qed.

(** A parsed response whose places the map accepts replaces the markers by
    those of its places, whatever was on the map. *)
Lemma overpass_response_renders (data : OverpassData) (s : State) :
  all_accepted (OverpassOnly.normalize (elements data)) ->
  markerCluster (OverpassOnly.loadPizzaPlaces_resume (JsonParsed data) s)
  = map marker_of (OverpassOnly.normalize (elements data)).
Proof.
  intros Hv. unfold OverpassOnly.loadPizzaPlaces_resume. simpl.
  by rewrite (addPizzaMarkers_accepted _ s Hv).
Qed.

Lemma hybrid_overpass_response_renders (data : OverpassData) (s : State) :
  all_accepted (Hybrid.normalize (elements data)) ->
  markerCluster (Hybrid.loadPizzaPlaces_resume_overpass (JsonParsed data) s)
  = map marker_of (Hybrid.normalize (elements data)).
Proof.
  intros Hv. unfold Hybrid.loadPizzaPlaces_resume_overpass, Hybrid.render. simpl.
  by rewrite (addPizzaMarkers_accepted _ s Hv).
Qed.

Lemma hybrid_api_response_renders (data : PlacesEnvelope) (s : State) :
  truthy (pe_success data) = true ->
  all_accepted (pe_places data) ->
  markerCluster (Hybrid.loadPizzaPlaces_resume_api (JsonParsed data) s)
  = map marker_of (pe_places data).
Proof.
  intros H Hv. unfold Hybrid.loadPizzaPlaces_resume_api, Hybrid.render. simpl.
  rewrite H. simpl. by rewrite (addPizzaMarkers_accepted _ s Hv).
Qed.

Lemma python_response_renders (data : PlacesEnvelope) (s : State) :
  truthy (pe_success data) = true ->
  all_accepted (pe_places data) ->
  markerCluster (PythonApi.loadPizzaPlaces_resume (JsonParsed data) s)
  = map marker_of (pe_places data).
Proof.
  intros H Hv. unfold PythonApi.loadPizzaPlaces_resume. simpl. rewrite H. simpl.
  by rewrite (addPizzaMarkers_accepted _ s Hv).
Qed.

(** C8, as the code has it.  Fetch A is issued, then [updateLocation] is
    called for [(lat, lng)] and issues fetch B (when the map accepts the
    coordinates; it throws before the fetch otherwise); B's response
    arrives first and A's after it, both parsed (and, from the Python API,
    A's successful), and the map accepts the coordinates of A's places.
    The markers on the map at the end are those of A's response: the
    response that completes later wins, whatever the order of issue and
    whatever B's response was. *)
Theorem later_response_wins
    (hostname API_BASE : string) (lat lng : JsVal)
    (dataA dataB : OverpassData) (envA envB : PlacesEnvelope) (s : State) :
  (all_accepted (Hybrid.normalize (elements dataA)) ->
   markerCluster
     (Hybrid.loadPizzaPlaces_resume_overpass (JsonParsed dataA)
        (Hybrid.loadPizzaPlaces_resume_overpass (JsonParsed dataB)
           (uncaught (Hybrid.updateLocation API_BASE lat lng
                        (Hybrid.loadPizzaPlaces API_BASE s)))))
   = map marker_of (Hybrid.normalize (elements dataA)))
  /\ (all_accepted (OverpassOnly.normalize (elements dataA)) ->
      markerCluster
        (OverpassOnly.loadPizzaPlaces_resume (JsonParsed dataA)
           (OverpassOnly.loadPizzaPlaces_resume (JsonParsed dataB)
              (uncaught (OverpassOnly.updateLocation lat lng
                           (OverpassOnly.loadPizzaPlaces s)))))
      = map marker_of (OverpassOnly.normalize (elements dataA)))
  /\ (truthy (pe_success envA) = true ->
      all_accepted (pe_places envA) ->
      markerCluster
        (Hybrid.loadPizzaPlaces_resume_api (JsonParsed envA)
           (Hybrid.loadPizzaPlaces_resume_api (JsonParsed envB)
              (uncaught (Hybrid.updateLocation API_BASE lat lng
                           (Hybrid.loadPizzaPlaces API_BASE s)))))
      = map marker_of (pe_places envA))
  /\ (truthy (pe_success envA) = true ->
      all_accepted (pe_places envA) ->
      markerCluster
        (PythonApi.loadPizzaPlaces_resume (JsonParsed envA)
           (PythonApi.loadPizzaPlaces_resume (JsonParsed envB)
              (uncaught (PythonApi.updateLocation hostname lat lng
                           (PythonApi.loadPizzaPlaces hostname s)))))
      = map marker_of (pe_places envA)).
Proof.
  split; [apply hybrid_overpass_response_renders|].
  split; [apply overpass_response_renders|].
  split; intros H Hv.
  - by apply hybrid_api_response_renders.
  - by apply python_response_renders.
Qed.

End Normalisation.

(** ** Worked examples *)

Lemma normalisation_drops_exactly_unresolved_witness :
  Forall (fun el => absent_or_truthy (el_lat el) = true
                    /\ absent_or_truthy (el_lon el) = true)
    [node_element; way_element; bare_element]
  /\ length (Hybrid.normalize (rt := example_runtime)
               [node_element; way_element; bare_element])
     = length [node_element; way_element; bare_element]
       - count_where lacks_coordinates [node_element; way_element; bare_element].
Proof.
  assert (Forall (fun el => absent_or_truthy (el_lat el) = true
                            /\ absent_or_truthy (el_lon el) = true)
            [node_element; way_element; bare_element]) as H.
  { repeat constructor. }
  split; [exact H|].
  destruct (normalisation_drops_exactly_unresolved (rt := example_runtime)
              [node_element; way_element; bare_element]) as [Hyb _].
  exact (proj1 (Hyb H)).
Defined.

(** Against C1 as worded.  The hybrid variant leaves out a node that has
    both coordinates, one of them zero, so the list is shorter than the
    count of elements lacking coordinates allows; the Overpass-only
    variant keeps an element that has neither coordinates nor centre. *)
Lemma normalisation_count_fails :
  (lacks_coordinates equator_element = false
   /\ length (Hybrid.normalize (rt := example_runtime) [equator_element])
      <> length [equator_element]
         - count_where lacks_coordinates [equator_element])
  /\ (lacks_coordinates bare_element = true
      /\ length (OverpassOnly.normalize (rt := example_runtime) [bare_element])
         <> length [bare_element]
            - count_where lacks_coordinates [bare_element]).
Proof.
  split; (split; [reflexivity|]); vm_compute; discriminate.
Qed.

Lemma zero_coordinate_is_treated_as_absent_witness :
  (is_zero_number (el_lat equator_element) = true
   \/ is_zero_number (el_lon equator_element) = true)
  /\ Hybrid.normalizeElement (rt := example_runtime) equator_element = None.
Proof.
  assert (is_zero_number (el_lat equator_element) = true
          \/ is_zero_number (el_lon equator_element) = true) as H.
  { left. reflexivity. }
  split; [exact H|].
  exact (proj2 (zero_coordinate_is_treated_as_absent (rt := example_runtime)
                  equator_element H)).
Defined.

(** Against C8 as worded.  A is issued, then B; B's response arrives first
    and A's after it.  The map ends with A's marker, not with B's empty
    result. *)
Lemma earlier_response_does_not_win :
  markerCluster
    (Hybrid.loadPizzaPlaces_resume_overpass (rt := example_runtime)
       (mw := example_widget) (JsonParsed response_A)
       (Hybrid.loadPizzaPlaces_resume_overpass (rt := example_runtime)
          (mw := example_widget) (JsonParsed response_B)
          (uncaught
             (Hybrid.updateLocation (mw := example_widget)
                Hybrid.shipped_API_BASE (JNum 48.137) (JNum 11.575)
                (Hybrid.loadPizzaPlaces Hybrid.shipped_API_BASE initial_state)))))
  <> map marker_of (Hybrid.normalize (rt := example_runtime) (elements response_B)).
Proof. vm_compute. discriminate. Qed.

Lemma later_response_wins_witness :
  truthy (pe_success envelope_A) = true
  /\ all_accepted (mw := example_widget) (pe_places envelope_A)
  /\ markerCluster
       (PythonApi.loadPizzaPlaces_resume (rt := example_runtime)
          (mw := example_widget) (JsonParsed envelope_A)
          (PythonApi.loadPizzaPlaces_resume (rt := example_runtime)
             (mw := example_widget) (JsonParsed envelope_B)
             (uncaught
                (PythonApi.updateLocation (mw := example_widget)
                   "localhost" (JNum 48.137) (JNum 11.575)
                   (PythonApi.loadPizzaPlaces "localhost" initial_state)))))
     = map marker_of (pe_places envelope_A).
Proof.
  assert (all_accepted (mw := example_widget) (pe_places envelope_A)) as Hv.
  { repeat constructor. }
  split; [reflexivity|]. split; [exact Hv|].
  destruct (later_response_wins (rt := example_runtime) (mw := example_widget)
              "localhost" Hybrid.shipped_API_BASE (JNum 48.137) (JNum 11.575)
              response_A response_B envelope_A envelope_B initial_state)
    as (_ & _ & _ & H).
  exact (H eq_refl Hv).
Defined.

(** ** The scripts at work *)

Example shipped_base_is_overpass :
  Hybrid.direct_overpass Hybrid.shipped_API_BASE = true
  /\ Hybrid.direct_overpass "http://127.0.0.1:5000" = false.
Proof. split; reflexivity. Qed.

Example trim_examples :
  trim "  Berlin " = "Berlin"
  /\ trim "New York" = "New York"
  /\ trim (String (Ascii.ascii_of_nat 9) (String (Ascii.ascii_of_nat 10) "")) = "".
Proof. repeat split. Qed.

(** Typing "Berlin" in the Overpass-only script: one geocoding call, then,
    when Nominatim answers, the centre moves and one place request
    follows. *)
Example berlin_search :
  sent (OverpassOnly.searchCity " Berlin" initial_state)
    = [GetNominatim "Berlin" "PizzaHuntApp/1.0"]
  /\ sent (OverpassOnly.searchCity_resume (rt := example_runtime)
             (mw := example_widget) (JsonParsed [berlin])
             (OverpassOnly.searchCity " Berlin" initial_state))
     = [GetNominatim "Berlin" "PizzaHuntApp/1.0";
        PostOverpass "https://overpass-api.de/api/interpreter"
          (JNum 52.5170365) (JNum 13.3888599) false]
  /\ statusText (OverpassOnly.searchCity_resume (rt := example_runtime)
                   (mw := example_widget) (JsonParsed [berlin])
                   (OverpassOnly.searchCity " Berlin" initial_state))
     = "Found Berlin, Deutschland".
Proof. repeat split. Qed.

(** Three elements through the hybrid normalisation: two places shown. *)
Example hybrid_load_example :
  statusText (Hybrid.loadPizzaPlaces_resume_overpass (rt := example_runtime)
                (mw := example_widget) (JsonParsed {| elements := [node_element; way_element;
                                            bare_element] |})
                (Hybrid.loadPizzaPlaces Hybrid.shipped_API_BASE initial_state))
    = "Found 2 pizza places!"
  /\ map m_latlng
       (markerCluster
          (Hybrid.loadPizzaPlaces_resume_overpass (rt := example_runtime)
             (mw := example_widget)
             (JsonParsed {| elements := [node_element; way_element;
                                         bare_element] |})
             (Hybrid.loadPizzaPlaces Hybrid.shipped_API_BASE initial_state)))
     = [(JNum 52.51, JNum 13.4); (JNum 52.53, JNum 13.41)].
Proof. split; vm_compute; reflexivity. Qed.

(** ** Further properties of the scripts *)

Set Warnings "-clear-no-such-hyp".

Ltac open_handlers :=
  unfold PythonApi.handle, PythonApi.keypress, PythonApi.searchCity,
    PythonApi.searchCity_resume, PythonApi.useCurrentLocation,
    PythonApi.useCurrentLocation_success, PythonApi.useCurrentLocation_error,
    PythonApi.searchCurrentArea, PythonApi.loadPizzaPlaces_resume,
    PythonApi.updateLocation, PythonApi.loadPizzaPlaces,
    PythonApi.searchCity_catch, PythonApi.loadPizzaPlaces_catch,
    Hybrid.handle, Hybrid.keypress, Hybrid.searchCity,
    Hybrid.searchCity_resume_nominatim, Hybrid.searchCity_resume_api,
    Hybrid.loadPizzaPlaces_resume_overpass, Hybrid.loadPizzaPlaces_resume_api,
    Hybrid.render, Hybrid.updateLocation, Hybrid.loadPizzaPlaces,
    Hybrid.searchCity_catch, Hybrid.loadPizzaPlaces_catch,
    OverpassOnly.handle, OverpassOnly.keypress, OverpassOnly.searchCity,
    OverpassOnly.searchCity_resume, OverpassOnly.useCurrentLocation,
    OverpassOnly.useCurrentLocation_success,
    OverpassOnly.useCurrentLocation_error, OverpassOnly.searchCurrentArea,
    OverpassOnly.loadPizzaPlaces_resume, OverpassOnly.updateLocation,
    OverpassOnly.loadPizzaPlaces, OverpassOnly.searchCity_catch,
    OverpassOnly.loadPizzaPlaces_catch, await, try_catch, and_then, uncaught,
    setView;
  cbv zeta.

Ltac use_render :=
  repeat match goal with
  | H : addPizzaMarkers _ _ = Normal _ |- _ =>
      apply addPizzaMarkers_Normal in H
  | H : addPizzaMarkers _ _ = Throw _ _ |- _ =>
      apply addPizzaMarkers_Throw in H
  end;
  simplify_eq.

Ltac by_cases :=
  intros;
  unfold position_accepted, position_kept, kept_as_given, python_position,
    hybrid_position, overpass_position, map_accepts in *;
  open_handlers;
  repeat case_match; simplify_eq; use_render;
  cbn [sent currentLat currentLng mapCenter mapZoom markerCluster statusText
       statusClass loadingShown errorLog fetch updateStatus showLoading
       console_error set_center set_view set_markers fst snd negb] in *;
  simplify_eq.

Section Rendering.
Context {mw : MapWidget}.

Lemma renderable_idempotent (places : list Place) :
  renderable (renderable places) = renderable places.
Proof.
  induction places as [|p ps IH]; simpl; [done|].
  destruct (map_accepts (p_lat p) (p_lng p)) eqn:E; simpl; [|done].
  by rewrite E, IH.
Qed.

Lemma renderable_prefix (places : list Place) :
  renderable places `prefix_of` places.
Proof.
  induction places as [|p ps IH]; simpl; [done|].
  destruct (map_accepts (p_lat p) (p_lng p)); [by apply prefix_cons|].
  apply prefix_nil.
Qed.

(** X2. [addPizzaMarkers] empties the cluster and then adds one marker per
    place, in the order of the places, as long as the map accepts the
    coordinates of the place; at the first place it does not accept, the
    widget throws and the cluster is left with the markers of the places
    before that one.  Nothing else of the state changes, and what was on
    the map before plays no part.  When the map accepts the coordinates of
    all places the call completes and every place has its marker. *)
Theorem addPizzaMarkers_replaces_cluster (places other : list Place) (s : State) :
  uncaught (addPizzaMarkers places s)
    = set_markers (map marker_of (renderable places)) s
  /\ renderable places `prefix_of` places
  /\ uncaught (addPizzaMarkers places (uncaught (addPizzaMarkers other s)))
     = uncaught (addPizzaMarkers places s)
  /\ (all_accepted places ->
      addPizzaMarkers places s = Normal (set_markers (map marker_of places) s)
      /\ map m_popup (markerCluster (uncaught (addPizzaMarkers places s)))
         = places)
  /\ (forall after, addPizzaMarkers places s = Normal after ->
                    renderable places = places)
  /\ (forall error after,
        addPizzaMarkers places s = Throw error after ->
        renderable places <> places).
Proof.
  split; [apply addPizzaMarkers_uncaught|].
  split; [apply renderable_prefix|].
  split; [by rewrite !addPizzaMarkers_uncaught|].
  split.
  { intros H. split; [by apply addPizzaMarkers_accepted|].
    rewrite addPizzaMarkers_uncaught, (renderable_all _ H). simpl.
    rewrite <- list_fmap_compose. by rewrite list_fmap_id. }
  split.
  { unfold addPizzaMarkers. intros after H. by apply addMarkers_Normal in H. }
  intros error after H Hall.
  assert (all_accepted places) as Ha.
  { clear H. unfold all_accepted. revert Hall.
    induction places as [|p ps IH]; simpl; [constructor|].
    destruct (map_accepts (p_lat p) (p_lng p)) eqn:E; [|discriminate].
    intros [= Hps]. constructor; [exact E|by apply IH]. }
  rewrite (addPizzaMarkers_accepted _ s Ha) in H. discriminate.
Qed.

End Rendering.

Lemma addPizzaMarkers_replaces_cluster_witness :
  all_accepted (mw := example_widget) (pe_places envelope_A)
  /\ addPizzaMarkers (mw := example_widget) (pe_places envelope_A)
       state_with_marker
     = Normal (set_markers (map marker_of (pe_places envelope_A))
                 state_with_marker).
Proof.
  assert (all_accepted (mw := example_widget) (pe_places envelope_A)) as Hv.
  { repeat constructor. }
  split; [exact Hv|].
  destruct (addPizzaMarkers_replaces_cluster (mw := example_widget)
              (pe_places envelope_A) [] state_with_marker)
    as (_ & _ & _ & H & _).
  exact (proj1 (H Hv)).
Defined.

Lemma whitespace_only_trimStart (s : string) :
  whitespace_only (trimStart s) = whitespace_only s.
Proof.
  induction s as [|c r IH]; simpl; [done|].
  destruct (isWhiteSpace c) eqn:E; simpl; [done|]. by rewrite E.
Qed.

Lemma trimEnd_empty (s : string) : trimEnd s = "" -> whitespace_only s = true.
Proof.
  induction s as [|c r IH]; simpl; [done|].
  destruct (trimEnd r) eqn:E; [|discriminate].
  destruct (isWhiteSpace c); [|discriminate]. intros _. by apply IH.
Qed.

Lemma trim_empty (s : string) : trim s = "" -> whitespace_only s = true.
Proof.
  intros H. apply trimEnd_empty in H. by rewrite whitespace_only_trimStart in H.
Qed.

Lemma trimStart_start (s : string) : starts_with_whitespace (trimStart s) = false.
Proof.
  induction s as [|c r IH]; simpl; [done|].
  destruct (isWhiteSpace c) eqn:E; [done|]. simpl. exact E.
Qed.

Lemma trimEnd_start (s : string) :
  starts_with_whitespace s = false -> starts_with_whitespace (trimEnd s) = false.
Proof.
  destruct s as [|c r]; simpl; [done|]. intros H.
  destruct (trimEnd r); [|exact H]. by rewrite H.
Qed.

Lemma trimEnd_end (s : string) : ends_with_whitespace (trimEnd s) = false.
Proof.
  induction s as [|c r IH]; simpl; [done|].
  destruct (trimEnd r) as [|c' r'] eqn:E.
  - destruct (isWhiteSpace c) eqn:Ec; [done|]. simpl. exact Ec.
  - exact IH.
Qed.

(** X1. For a query that has a character other than white space,
    [searchCity] shows ["Searching for city..."] and issues exactly one
    geocoding call, which carries the query with the white space at both
    ends removed; the text sent is not empty.  The call goes to the Python
    API in the first variant, to Nominatim in the third, and in the hybrid
    variant to Nominatim exactly when [API_BASE] names the Overpass
    host. *)
Theorem searchCity_sends_trimmed_query
    (hostname API_BASE value : string) (s : State) :
  whitespace_only value = false ->
  trim value <> ""
  /\ starts_with_whitespace (trim value) = false
  /\ ends_with_whitespace (trim value) = false
  /\ PythonApi.searchCity hostname value s
     = fetch (GetSearchCity (PythonApi.API_BASE hostname) (trim value))
         (updateStatus "Searching for city..." "" s)
  /\ Hybrid.searchCity API_BASE value s
     = fetch (if Hybrid.direct_overpass API_BASE
              then GetNominatim (trim value) "PizzaHuntApp/1.0 (email@example.com)"
              else GetSearchCity API_BASE (trim value))
         (updateStatus "Searching for city..." "" s)
  /\ OverpassOnly.searchCity value s
     = fetch (GetNominatim (trim value) "PizzaHuntApp/1.0")
         (updateStatus "Searching for city..." "" s).
Proof.
  intros H.
  assert (trim value <> "") as Hne.
  { intros E. apply trim_empty in E. congruence. }
  assert (truthy (JStr (trim value)) = true) as Ht.
  { destruct (truthy (JStr (trim value))) eqn:E; [done|].
    by apply truthy_JStr in E. }
  split; [exact Hne|].
  split; [apply trimEnd_start, trimStart_start|].
  split; [apply trimEnd_end|].
  unfold PythonApi.searchCity, Hybrid.searchCity, OverpassOnly.searchCity.
  rewrite Ht. simpl. repeat split.
  by destruct (Hybrid.direct_overpass API_BASE).
Qed.

Lemma searchCity_sends_trimmed_query_witness :
  whitespace_only "  New York " = false
  /\ sent (OverpassOnly.searchCity "  New York " initial_state)
     = [GetNominatim "New York" "PizzaHuntApp/1.0"].
Proof.
  split; [reflexivity|].
  destruct (searchCity_sends_trimmed_query "localhost" Hybrid.shipped_API_BASE
              "  New York " initial_state eq_refl) as (_ & _ & _ & _ & _ & H).
  exact (f_equal sent H).
Defined.

Section Loads.
Context {rt : JsRuntime} {mw : MapWidget}.

(** X3. However the request of [loadPizzaPlaces] settles (transport
    failure, body that is not JSON, failure envelope, or places), the
    continuation issues no further network call, leaves [currentLat],
    [currentLng] and the view of the map as they are, and hides the
    loading overlay.  In particular the overlay is hidden by the first
    response even while another request is still out. *)
Theorem settled_load_is_quiet
    (api_reply : Reply PlacesEnvelope) (overpass_reply : Reply OverpassData)
    (s : State) :
  load_settled_quietly s (PythonApi.loadPizzaPlaces_resume api_reply s)
  /\ load_settled_quietly s (Hybrid.loadPizzaPlaces_resume_api api_reply s)
  /\ load_settled_quietly s
       (Hybrid.loadPizzaPlaces_resume_overpass overpass_reply s)
  /\ load_settled_quietly s (OverpassOnly.loadPizzaPlaces_resume overpass_reply s)
  /\ loadingShown
       (OverpassOnly.loadPizzaPlaces_resume overpass_reply
          (OverpassOnly.loadPizzaPlaces (OverpassOnly.loadPizzaPlaces s)))
     = false.
Proof.
  unfold load_settled_quietly.
  repeat split; by_cases; done.
Qed.

(** X4. Whenever a load ends with the status of severity [success], the
    number the status line announces is the number of markers on the map;
    this holds for every reply in the three variants. *)
Theorem success_status_counts_markers
    (api_reply : Reply PlacesEnvelope) (overpass_reply : Reply OverpassData)
    (s : State) :
  (statusClass (PythonApi.loadPizzaPlaces_resume api_reply s) = "status success" ->
   count_announced (PythonApi.loadPizzaPlaces_resume api_reply s))
  /\ (statusClass (Hybrid.loadPizzaPlaces_resume_api api_reply s)
      = "status success" ->
      count_announced (Hybrid.loadPizzaPlaces_resume_api api_reply s))
  /\ (statusClass (Hybrid.loadPizzaPlaces_resume_overpass overpass_reply s)
      = "status success" ->
      count_announced (Hybrid.loadPizzaPlaces_resume_overpass overpass_reply s))
  /\ (statusClass (OverpassOnly.loadPizzaPlaces_resume overpass_reply s)
      = "status success" ->
      count_announced (OverpassOnly.loadPizzaPlaces_resume overpass_reply s)).
Proof.
  unfold count_announced.
  repeat split; revert api_reply overpass_reply;
    open_handlers; intros api_reply overpass_reply;
    repeat case_match; simplify_eq; use_render;
    cbn [statusClass statusText markerCluster updateStatus showLoading
         console_error set_markers];
    rewrite ?length_map; try done; simpl; discriminate.
Qed.

End Loads.

Lemma success_status_counts_markers_witness :
  statusClass (Hybrid.loadPizzaPlaces_resume_overpass (rt := example_runtime)
                 (mw := example_widget) (JsonParsed response_A)
                 state_with_marker)
  = "status success"
  /\ count_announced
       (Hybrid.loadPizzaPlaces_resume_overpass (rt := example_runtime)
          (mw := example_widget) (JsonParsed response_A) state_with_marker).
Proof.
  split; [reflexivity|].
  destruct (success_status_counts_markers (rt := example_runtime)
              (mw := example_widget)
              (JsonParsed envelope_A) (JsonParsed response_A) state_with_marker)
    as (_ & _ & H & _).
  exact (H eq_refl).
Defined.

Section Places.
Context {rt : JsRuntime}.

Lemma js_or_truthy (a b : JsVal) : truthy b = true -> truthy (js_or a b) = true.
Proof. intros H. unfold js_or. by destruct (truthy a) eqn:E. Qed.

Lemma js_or_empty (v : JsVal) : tag_or_empty v (js_or v (JStr "")).
Proof.
  unfold tag_or_empty, js_or. destruct (truthy v) eqn:E; [by right|by left].
Qed.

Lemma optional_tag_default (tags : option (gmap string JsVal)) (key : string) :
  OverpassOnly.optional_tag tags key = tag (default ∅ tags) key.
Proof. destruct tags; [done|]. unfold tag. simpl. by rewrite lookup_empty. Qed.

(** X5. Whatever tags an element has, the place made from it has a truthy
    name and category (and, in the hybrid variant, cuisine), an address
    that is a string, and a phone, website, opening hours, takeaway and
    delivery that are each the tag's value, when that is truthy, or the
    empty string: never [undefined] or [null].  An element without tags
    gets the name ["Pizza Place"], the category ["restaurant"] and empty
    strings elsewhere. *)
Theorem normalised_place_has_safe_defaults (el : Element) (lat lng : JsVal) :
  safe_defaults (default ∅ (el_tags el)) (Hybrid.placeOf el lat lng)
  /\ truthy (p_cuisine (Hybrid.placeOf el lat lng)) = true
  /\ safe_defaults (default ∅ (el_tags el)) (OverpassOnly.normalizeElement el)
  /\ (el_tags el = None ->
      Hybrid.placeOf el lat lng
      = {| p_id := el_id el; p_lat := lat; p_lng := lng;
           p_name := JStr "Pizza Place"; p_cuisine := JStr "pizza";
           p_amenity := JStr "restaurant"; p_phone := JStr "";
           p_website := JStr ""; p_address := JStr "";
           p_opening_hours := JStr ""; p_takeaway := JStr "";
           p_delivery := JStr "" |}
      /\ OverpassOnly.normalizeElement el
         = {| p_id := JUndefined; p_lat := el_lat el; p_lng := el_lon el;
              p_name := JStr "Pizza Place"; p_cuisine := JUndefined;
              p_amenity := JStr "restaurant"; p_phone := JStr "";
              p_website := JStr ""; p_address := JStr "";
              p_opening_hours := JStr ""; p_takeaway := JStr "";
              p_delivery := JStr "" |}).
Proof.
  split.
  { unfold safe_defaults, Hybrid.placeOf. simpl.
    repeat split; try apply js_or_empty; try (by apply js_or_truthy).
    by eexists. }
  split; [by apply js_or_truthy|].
  split.
  { unfold safe_defaults, OverpassOnly.normalizeElement. simpl.
    rewrite !optional_tag_default.
    repeat split; try apply js_or_empty; try (by apply js_or_truthy).
    by eexists. }
  intros H. unfold Hybrid.placeOf, OverpassOnly.normalizeElement.
  rewrite H. split; by vm_compute.
Qed.

Lemma amenity_without_shop (amenity shop : JsVal) :
  truthy amenity = true \/ truthy shop = false ->
  js_or (js_or amenity shop) (JStr "restaurant")
  = js_or amenity (JStr "restaurant").
Proof.
  unfold js_or. intros [H|H].
  - by rewrite H, H.
  - destruct (truthy amenity) eqn:E; [by rewrite E|]. by rewrite H.
Qed.

(** X6. The two normalisations show the same place for every element that
    has truthy direct coordinates and whose category does not come from
    the [shop] tag: the hybrid variant keeps the element, and its marker
    position, tooltip and popup are those the Overpass-only variant
    gives. *)
Theorem variants_show_same_place (el : Element) :
  truthy (el_lat el) && truthy (el_lon el) = true ->
  truthy (tag (default ∅ (el_tags el)) "amenity") = true
    \/ truthy (tag (default ∅ (el_tags el)) "shop") = false ->
  exists p, Hybrid.normalizeElement el = Some p
            /\ same_display p (OverpassOnly.normalizeElement el).
Proof.
  intros Hd Ha.
  unfold Hybrid.normalizeElement, Hybrid.resolveCoordinates. rewrite Hd.
  eexists. split; [reflexivity|].
  unfold same_display, createPopupContent, marker_of, Hybrid.placeOf,
    OverpassOnly.normalizeElement.
  simpl. rewrite !optional_tag_default.
  rewrite (amenity_without_shop _ _ Ha). done.
Qed.

Lemma filter_Boolean_app (l k : list (option Place)) :
  Hybrid.filter_Boolean (l ++ k)
  = Hybrid.filter_Boolean l ++ Hybrid.filter_Boolean k.
Proof.
  induction l as [|[p|] l IH]; simpl; [done| |done]. by rewrite IH.
Qed.

(** X7. The hybrid normalisation keeps the order of the elements and makes
    no place up: the ids of the places are a sublist of the ids of the
    elements, a list of elements in two parts gives the places of the
    first part followed by those of the second, and every place has the
    id of its element and either the element's direct coordinates (both
    truthy) or, when these are not both truthy, those of its centre.  The
    Overpass-only normalisation gives the places the coordinates of the
    elements, one for one. *)
Theorem normalisation_keeps_order (els more : list Element) :
  Hybrid.normalize (els ++ more) = Hybrid.normalize els ++ Hybrid.normalize more
  /\ map p_id (Hybrid.normalize els) `sublist_of` map el_id els
  /\ (forall el p,
        Hybrid.normalizeElement el = Some p ->
        p_id p = el_id el
        /\ ((truthy (el_lat el) && truthy (el_lon el) = true
             /\ p_lat p = el_lat el /\ p_lng p = el_lon el)
            \/ (truthy (el_lat el) && truthy (el_lon el) = false
                /\ exists center, el_center el = Some center
                                  /\ p_lat p = c_lat center
                                  /\ p_lng p = c_lon center)))
  /\ map (fun p => (p_lat p, p_lng p)) (OverpassOnly.normalize els)
     = map (fun el => (el_lat el, el_lon el)) els.
Proof.
  split.
  { unfold Hybrid.normalize. by rewrite map_app, filter_Boolean_app. }
  assert (forall el p,
        Hybrid.normalizeElement el = Some p ->
        p_id p = el_id el
        /\ ((truthy (el_lat el) && truthy (el_lon el) = true
             /\ p_lat p = el_lat el /\ p_lng p = el_lon el)
            \/ (truthy (el_lat el) && truthy (el_lon el) = false
                /\ exists center, el_center el = Some center
                                  /\ p_lat p = c_lat center
                                  /\ p_lng p = c_lon center))) as Hel.
  { intros el p. unfold Hybrid.normalizeElement, Hybrid.resolveCoordinates.
    destruct (truthy (el_lat el) && truthy (el_lon el)).
    - intros [= <-]. split; [done|]. by left.
    - destruct (el_center el) as [c|]; [|discriminate].
      intros [= <-]. split; [done|]. right. split; [done|]. by exists c. }
  split.
  { unfold Hybrid.normalize. induction els as [|el els IH]; simpl.
    - constructor.
    - destruct (Hybrid.normalizeElement el) as [p|] eqn:E; simpl.
      + destruct (Hel el p E) as [-> _]. by apply sublist_skip.
      + by apply sublist_cons. }
  split; [exact Hel|].
  unfold OverpassOnly.normalize. induction els as [|el els IH]; simpl; [done|].
  by rewrite IH.
Qed.

Lemma buildAddress_table (tags : gmap string JsVal) :
  buildAddress tags
  = address_of_components (component tags "addr:housenumber")
                          (component tags "addr:street")
                          (component tags "addr:city").
Proof.
  unfold buildAddress, push_if_present, component. rewrite or_empty.
  destruct (truthy (tag tags "addr:housenumber")) eqn:Hh;
    destruct (truthy (tag tags "addr:street")) eqn:Hs;
    destruct (truthy (tag tags "addr:city")) eqn:Hc; simpl;
    rewrite ?(element_text_truthy _ Hh), ?(element_text_truthy _ Hs),
      ?(element_text_truthy _ Hc); reflexivity.
Qed.

(** X8. [buildAddress] reads the three address tags and nothing else:
    adding, changing or removing any other tag leaves the address as it
    is. *)
Theorem buildAddress_ignores_other_tags
    (tags : gmap string JsVal) (key : string) (v : JsVal) :
  key ∉ address_keys ->
  buildAddress (<[key := v]> tags) = buildAddress tags
  /\ buildAddress (delete key tags) = buildAddress tags.
Proof.
  unfold address_keys. rewrite !not_elem_of_cons.
  intros (H1 & H2 & H3 & _).
  unfold buildAddress, push_if_present, tag.
  by rewrite !lookup_insert_ne, !lookup_delete_ne.
Qed.

Lemma prefix_app (n post : string) : String.prefix n (n +:+ post) = true.
Proof.
  induction n as [|c n IH]; simpl; [by destruct post|].
  destruct (Ascii.ascii_dec c c); [exact IH|done].
Qed.

Lemma prefix_refl (n : string) : String.prefix n n = true.
Proof.
  induction n as [|c n IH]; simpl; [done|].
  destruct (Ascii.ascii_dec c c); [exact IH|done].
Qed.

Lemma includes_of_prefix (n hay : string) :
  String.prefix n hay = true -> includes n hay = true.
Proof. intros H. destruct hay; cbn [includes]; by rewrite H. Qed.

Lemma includes_prefix (n post : string) : includes n (n +:+ post) = true.
Proof. apply includes_of_prefix, prefix_app. Qed.

Lemma includes_refl (n : string) : includes n n = true.
Proof. apply includes_of_prefix, prefix_refl. Qed.

Lemma includes_app_r (n pre hay : string) :
  includes n hay = true -> includes n (pre +:+ hay) = true.
Proof.
  intros H. induction pre as [|c pre IH]; simpl; [exact H|].
  rewrite IH. apply orb_true_r.
Qed.

(** X9. Every address tag that holds a string shows in the address: the
    text of the tag is part of what [buildAddress] returns, so a non-empty
    housenumber, street or city is never dropped. *)
Theorem buildAddress_contains_each_component
    (tags : gmap string JsVal) (key text : string) :
  key ∈ address_keys ->
  tag tags key = JStr text ->
  includes text (buildAddress tags) = true.
Proof.
  intros Hk Ht.
  destruct text as [|c text].
  { destruct (buildAddress tags); reflexivity. }
  assert (component tags key = Some (String c text)) as Hc.
  { unfold component. by rewrite Ht. }
  rewrite buildAddress_table. unfold address_keys in Hk.
  rewrite !elem_of_cons in Hk.
  destruct Hk as [->|[->|[->|Hk]]]; [| | |by apply elem_of_nil in Hk];
    rewrite Hc;
    destruct (component tags "addr:housenumber");
    destruct (component tags "addr:street");
    destruct (component tags "addr:city");
    unfold address_of_components;
    repeat first [ apply includes_refl
                 | apply includes_prefix
                 | apply includes_app_r ].
Qed.

End Places.

Lemma variants_show_same_place_witness :
  exists p, Hybrid.normalizeElement (rt := example_runtime) node_element = Some p
            /\ same_display p
                 (OverpassOnly.normalizeElement (rt := example_runtime)
                    node_element).
Proof.
  apply (variants_show_same_place (rt := example_runtime) node_element).
  - reflexivity.
  - right. reflexivity.
Defined.

Lemma buildAddress_ignores_other_tags_witness :
  buildAddress (rt := example_runtime)
    (<["name" := JStr "Uno"]> {["addr:city" := JStr "Springfield"]})
  = buildAddress (rt := example_runtime) {["addr:city" := JStr "Springfield"]}.
Proof.
  refine (proj1 (buildAddress_ignores_other_tags (rt := example_runtime)
                   {["addr:city" := JStr "Springfield"]} "name" (JStr "Uno") _)).
  unfold address_keys. rewrite !not_elem_of_cons.
  repeat split; try discriminate. apply not_elem_of_nil.
Defined.

Lemma buildAddress_contains_each_component_witness :
  includes "Main St"
    (buildAddress (rt := example_runtime)
       (<["addr:street" := JStr "Main St"]>
          {["addr:city" := JStr "Springfield"]}))
  = true.
Proof.
  apply (buildAddress_contains_each_component (rt := example_runtime)
           _ "addr:street" "Main St").
  - unfold address_keys. apply list_elem_of_further, list_elem_of_here.
  - reflexivity.
Defined.

Lemma last_place_centre_snoc (reqs : list Request) (r : Request) :
  last_place_centre (reqs ++ [r])
  = match request_center r with
    | Some centre => Some centre
    | None => last_place_centre reqs
    end.
Proof. unfold last_place_centre. by rewrite fold_left_app. Qed.

Lemma fold_invariant {E : Type} (step : E -> State -> State)
    (allowed : E -> Prop) (P : State -> Prop) :
  (forall e s, allowed e -> P s -> P (step e s)) ->
  forall events s,
    Forall allowed events ->
    P s -> P (fold_left (fun s e => step e s) events s).
Proof.
  intros Hstep events. induction events as [|e es IH]; intros s Hall Hs; simpl.
  - exact Hs.
  - apply Forall_cons in Hall as [He Hes]. apply IH; [exact Hes|].
    by apply Hstep.
Qed.

Lemma Forall_always {E : Type} (events : list E) :
  Forall (fun _ => True) events.
Proof. by apply Forall_forall. Qed.


Section Traces.
Context {rt : JsRuntime} {mw : MapWidget}.

(** The page once the script has run to the end of its [DOMContentLoaded]
    listener: the map is there, on the default centre, and the first
    place request is out. *)
Lemma page_loaded_python (hostname : string) (s0 : State) :
  PythonApi.DOMContentLoaded hostname s0
  = PythonApi.loadPizzaPlaces hostname
      (set_markers []
         (set_view (JNum 52.52) (JNum 13.405) 12
            (set_center (JNum 52.52) (JNum 13.405) s0))).
Proof.
  unfold PythonApi.DOMContentLoaded, initMap, setView. cbv zeta.
  cbn [currentLat currentLng set_center].
  by rewrite toLatLng_number.
Qed.

Lemma page_loaded_hybrid (API_BASE : string) (s0 : State) :
  Hybrid.DOMContentLoaded API_BASE s0
  = Hybrid.loadPizzaPlaces API_BASE
      (set_markers []
         (set_view (JNum 52.52) (JNum 13.405) 12
            (set_center (JNum 52.52) (JNum 13.405) s0))).
Proof.
  unfold Hybrid.DOMContentLoaded, initMap, setView. cbv zeta.
  cbn [currentLat currentLng set_center].
  by rewrite toLatLng_number.
Qed.

Lemma page_loaded_overpass (s0 : State) :
  OverpassOnly.DOMContentLoaded s0
  = OverpassOnly.loadPizzaPlaces
      (set_markers []
         (set_view (JNum 52.52) (JNum 13.405) 12
            (set_center (JNum 52.52) (JNum 13.405) s0))).
Proof.
  unfold OverpassOnly.DOMContentLoaded, initMap, setView. cbv zeta.
  cbn [currentLat currentLng set_center].
  by rewrite toLatLng_number.
Qed.

Lemma centre_requested_python (hostname : string) e s :
  position_accepted (python_position e) ->
  centre_requested s -> centre_requested (PythonApi.handle hostname e s).
Proof.
  unfold centre_requested. destruct e; by_cases;
    rewrite ?last_place_centre_snoc; cbn [request_center]; try done.
  all: by destruct (mapCenter s).
Qed.

Lemma centre_requested_hybrid (API_BASE : string) e s :
  position_accepted (hybrid_position e) ->
  centre_requested s -> centre_requested (Hybrid.handle API_BASE e s).
Proof.
  unfold centre_requested. destruct e; by_cases;
    rewrite ?last_place_centre_snoc; cbn [request_center]; done.
Qed.

Lemma centre_requested_overpass e s :
  position_accepted (overpass_position e) ->
  centre_requested s -> centre_requested (OverpassOnly.handle e s).
Proof.
  unfold centre_requested. destruct e; by_cases;
    rewrite ?last_place_centre_snoc; cbn [request_center]; try done.
  all: by destruct (mapCenter s).
Qed.

(** X10. From the moment the page is loaded, and as long as the map
    accepts every position the page is given by the geolocation service or
    by a city search, the last place request issued is about the current
    centre: the script then never changes [currentLat] or [currentLng]
    without asking for the places around the new centre, in any of the
    three variants. *)
Theorem centre_is_always_requested
    (hostname API_BASE : string) (s0 : State)
    (python_events : list PythonApi.Event)
    (hybrid_events : list Hybrid.Event)
    (overpass_events : list OverpassOnly.Event) :
  Forall (fun e => position_accepted (python_position e)) python_events ->
  Forall (fun e => position_accepted (hybrid_position e)) hybrid_events ->
  Forall (fun e => position_accepted (overpass_position e)) overpass_events ->
  centre_requested
    (PythonApi.run hostname python_events (PythonApi.DOMContentLoaded hostname s0))
  /\ centre_requested
       (Hybrid.run API_BASE hybrid_events (Hybrid.DOMContentLoaded API_BASE s0))
  /\ centre_requested
       (OverpassOnly.run overpass_events (OverpassOnly.DOMContentLoaded s0)).
Proof.
  intros Hp Hh Ho. unfold PythonApi.run, Hybrid.run, OverpassOnly.run.
  rewrite page_loaded_python, page_loaded_hybrid, page_loaded_overpass.
  split; [|split].
  - apply (fold_invariant (PythonApi.handle hostname) _ _
             (centre_requested_python hostname) _ _ Hp).
    unfold centre_requested. simpl. by rewrite last_place_centre_snoc.
  - apply (fold_invariant (Hybrid.handle API_BASE) _ _
             (centre_requested_hybrid API_BASE) _ _ Hh).
    unfold centre_requested, Hybrid.loadPizzaPlaces.
    case_match; simpl; by rewrite last_place_centre_snoc.
  - apply (fold_invariant OverpassOnly.handle _ _
             centre_requested_overpass _ _ Ho).
    unfold centre_requested. simpl. by rewrite last_place_centre_snoc.
Qed.












(** X13. Only a place response that was parsed can change the markers on
    the map, and only a parsed city answer, a position given by the
    geolocation service or [searchCurrentArea] can change [currentLat] and
    [currentLng]: every other event (a key, a call of [searchCity] or
    [useCurrentLocation], a failed request, a refused position, the user
    moving the map) leaves them as they are. *)
Theorem events_leave_markers_and_centre
    (hostname API_BASE : string) (s : State)
    (pe : PythonApi.Event) (he : Hybrid.Event) (oe : OverpassOnly.Event) :
  (PythonApi.may_render pe = false ->
   markerCluster (PythonApi.handle hostname pe s) = markerCluster s)
  /\ (PythonApi.may_recentre pe = false ->
      currentLat (PythonApi.handle hostname pe s) = currentLat s
      /\ currentLng (PythonApi.handle hostname pe s) = currentLng s)
  /\ (Hybrid.may_render he = false ->
      markerCluster (Hybrid.handle API_BASE he s) = markerCluster s)
  /\ (Hybrid.may_recentre he = false ->
      currentLat (Hybrid.handle API_BASE he s) = currentLat s
      /\ currentLng (Hybrid.handle API_BASE he s) = currentLng s)
  /\ (OverpassOnly.may_render oe = false ->
      markerCluster (OverpassOnly.handle oe s) = markerCluster s)
  /\ (OverpassOnly.may_recentre oe = false ->
      currentLat (OverpassOnly.handle oe s) = currentLat s
      /\ currentLng (OverpassOnly.handle oe s) = currentLng s).
Proof.
  repeat split.
  - destruct pe as [| | | | | | | |[]]; try discriminate; by_cases; done.
  - destruct pe as [| |[]| | | | | |]; try discriminate; by_cases; done.
  - destruct pe as [| |[]| | | | | |]; try discriminate; by_cases; done.
  - destruct he as [| | | | |[]|[]]; try discriminate; by_cases; done.
  - destruct he as [| |[]|[]| | |]; try discriminate; by_cases; done.
  - destruct he as [| |[]|[]| | |]; try discriminate; by_cases; done.
  - destruct oe as [| | | | | | | |[]]; try discriminate; by_cases; done.
  - destruct oe as [| |[]| | | | | |]; try discriminate; by_cases; done.
  - destruct oe as [| |[]| | | | | |]; try discriminate; by_cases; done.
Qed.

Lemma one_call_python (hostname : string) e s :
  at_most_one_call s (PythonApi.handle hostname e s).
Proof.
  unfold at_most_one_call. destruct e; by_cases; try (by left); right; by eexists.
Qed.

Lemma one_call_hybrid (API_BASE : string) e s :
  at_most_one_call s (Hybrid.handle API_BASE e s).
Proof.
  unfold at_most_one_call. destruct e; by_cases; try (by left); right; by eexists.
Qed.

Lemma one_call_overpass e s : at_most_one_call s (OverpassOnly.handle e s).
Proof.
  unfold at_most_one_call. destruct e; by_cases; try (by left); right; by eexists.
Qed.

Lemma at_most_one_call_prefix (s0 before after : State) :
  sent s0 `prefix_of` sent before ->
  at_most_one_call before after ->
  sent s0 `prefix_of` sent after.
Proof.
  intros Hp [->|[req ->]]; [exact Hp|].
  by apply prefix_app_r.
Qed.

(** X14. One event issues at most one network call, and no call once
    issued is ever taken back: the calls issued before a run of events are
    the first calls issued after it, in the same order. *)
Theorem calls_are_issued_one_at_a_time
    (hostname API_BASE : string) (s : State)
    (pe : PythonApi.Event) (he : Hybrid.Event) (oe : OverpassOnly.Event)
    (python_events : list PythonApi.Event)
    (hybrid_events : list Hybrid.Event)
    (overpass_events : list OverpassOnly.Event) :
  at_most_one_call s (PythonApi.handle hostname pe s)
  /\ at_most_one_call s (Hybrid.handle API_BASE he s)
  /\ at_most_one_call s (OverpassOnly.handle oe s)
  /\ sent s `prefix_of` sent (PythonApi.run hostname python_events s)
  /\ sent s `prefix_of` sent (Hybrid.run API_BASE hybrid_events s)
  /\ sent s `prefix_of` sent (OverpassOnly.run overpass_events s).
Proof.
  split; [apply one_call_python|].
  split; [apply one_call_hybrid|].
  split; [apply one_call_overpass|].
  unfold PythonApi.run, Hybrid.run, OverpassOnly.run.
  split; [|split].
  - apply (fold_invariant (PythonApi.handle hostname) (fun _ => True)
             (fun s' => sent s `prefix_of` sent s'));
      [|apply Forall_always|done].
    intros e s' _ Hp. eapply at_most_one_call_prefix; [exact Hp|].
    apply one_call_python.
  - apply (fold_invariant (Hybrid.handle API_BASE) (fun _ => True)
             (fun s' => sent s `prefix_of` sent s'));
      [|apply Forall_always|done].
    intros e s' _ Hp. eapply at_most_one_call_prefix; [exact Hp|].
    apply one_call_hybrid.
  - apply (fold_invariant OverpassOnly.handle (fun _ => True)
             (fun s' => sent s `prefix_of` sent s'));
      [|apply Forall_always|done].
    intros e s' _ Hp. eapply at_most_one_call_prefix; [exact Hp|].
    apply one_call_overpass.
Qed.

Lemma upstream_python (hostname : string) e s :
  Forall (goes_to_python (PythonApi.API_BASE hostname)) (sent s) ->
  Forall (goes_to_python (PythonApi.API_BASE hostname))
    (sent (PythonApi.handle hostname e s)).
Proof.
  destruct e; by_cases; rewrite ?Forall_app, ?Forall_singleton; try done;
    split; try done.
Qed.

Lemma upstream_overpass e s :
  Forall (goes_to_osm "https://overpass-api.de/api/interpreter") (sent s) ->
  Forall (goes_to_osm "https://overpass-api.de/api/interpreter")
    (sent (OverpassOnly.handle e s)).
Proof.
  destruct e; by_cases; rewrite ?Forall_app, ?Forall_singleton; try done;
    split; try done.
Qed.

Lemma upstream_hybrid_osm (API_BASE : string) e s :
  Hybrid.direct_overpass API_BASE = true ->
  Forall (goes_to_osm API_BASE) (sent s) ->
  Forall (goes_to_osm API_BASE) (sent (Hybrid.handle API_BASE e s)).
Proof.
  intros Hd. destruct e; open_handlers; rewrite ?Hd; by_cases;
    rewrite ?Forall_app, ?Forall_singleton; try done; split; try done.
Qed.

Lemma upstream_hybrid_python (API_BASE : string) e s :
  Hybrid.direct_overpass API_BASE = false ->
  Forall (goes_to_python API_BASE) (sent s) ->
  Forall (goes_to_python API_BASE) (sent (Hybrid.handle API_BASE e s)).
Proof.
  intros Hd. destruct e; open_handlers; rewrite ?Hd; by_cases;
    rewrite ?Forall_app, ?Forall_singleton; try done; split; try done.
Qed.

(** X18. Every network call a page issues goes to the upstream it is
    configured for.  The first variant only calls the Python API at its
    [API_BASE].  The third only calls Nominatim and the Overpass
    interpreter at [https://overpass-api.de/api/interpreter].  The hybrid
    variant, when [API_BASE] contains [overpass-api.de], only calls
    Nominatim and posts its Overpass queries to [API_BASE] itself, and
    otherwise only calls the Python API at [API_BASE]: it never mixes the
    two within one configuration. *)
Theorem calls_go_to_the_configured_upstream
    (hostname API_BASE : string) (s0 : State)
    (python_events : list PythonApi.Event)
    (hybrid_events : list Hybrid.Event)
    (overpass_events : list OverpassOnly.Event) :
  sent s0 = [] ->
  Forall (goes_to_python (PythonApi.API_BASE hostname))
    (sent (PythonApi.run hostname python_events
             (PythonApi.DOMContentLoaded hostname s0)))
  /\ Forall (goes_to_osm "https://overpass-api.de/api/interpreter")
       (sent (OverpassOnly.run overpass_events (OverpassOnly.DOMContentLoaded s0)))
  /\ (includes "overpass-api.de" API_BASE = true ->
      Forall (goes_to_osm API_BASE)
        (sent (Hybrid.run API_BASE hybrid_events
                 (Hybrid.DOMContentLoaded API_BASE s0))))
  /\ (includes "overpass-api.de" API_BASE = false ->
      Forall (goes_to_python API_BASE)
        (sent (Hybrid.run API_BASE hybrid_events
                 (Hybrid.DOMContentLoaded API_BASE s0)))).
Proof.
  intros H0. unfold PythonApi.run, Hybrid.run, OverpassOnly.run.
  rewrite page_loaded_python, page_loaded_hybrid, page_loaded_overpass.
  split; [|split; [|split]].
  - apply (fold_invariant (PythonApi.handle hostname) (fun _ => True)
             (fun s => Forall (goes_to_python (PythonApi.API_BASE hostname))
                         (sent s))); [|apply Forall_always|].
    + intros e s _. apply upstream_python.
    + simpl. rewrite H0. by repeat constructor.
  - apply (fold_invariant OverpassOnly.handle (fun _ => True)
             (fun s => Forall
                         (goes_to_osm "https://overpass-api.de/api/interpreter")
                         (sent s))); [|apply Forall_always|].
    + intros e s _. apply upstream_overpass.
    + simpl. rewrite H0. by repeat constructor.
  - intros Hd. change (Hybrid.direct_overpass API_BASE = true) in Hd.
    apply (fold_invariant (Hybrid.handle API_BASE) (fun _ => True)
             (fun s => Forall (goes_to_osm API_BASE) (sent s)));
      [|apply Forall_always|].
    + intros e s _. by apply upstream_hybrid_osm.
    + unfold Hybrid.loadPizzaPlaces. rewrite Hd.
      simpl. rewrite H0. by repeat constructor.
  - intros Hd. change (Hybrid.direct_overpass API_BASE = false) in Hd.
    apply (fold_invariant (Hybrid.handle API_BASE) (fun _ => True)
             (fun s => Forall (goes_to_python API_BASE) (sent s)));
      [|apply Forall_always|].
    + intros e s _. by apply upstream_hybrid_python.
    + unfold Hybrid.loadPizzaPlaces. rewrite Hd.
      simpl. rewrite H0. by repeat constructor.
Qed.

(** X19. A city search that fails moves nothing: when the request is
    rejected, the body is not JSON, the Python API answers with a failure
    envelope or Nominatim finds no match, the centre, the view of the map,
    the markers and the overlay stay as they are, no network call is
    issued, and the status line shows an error. *)
Theorem failed_city_search_moves_nothing
    (hostname API_BASE : string)
    (api_reply : Reply CityEnvelope) (nominatim_reply : Reply (list Match))
    (s : State) :
  (forall data, api_reply = JsonParsed data -> truthy (ce_success data) = false) ->
  (forall data, nominatim_reply = JsonParsed data -> data = []) ->
  search_failed_quietly s (PythonApi.searchCity_resume hostname api_reply s)
  /\ search_failed_quietly s (Hybrid.searchCity_resume_api API_BASE api_reply s)
  /\ search_failed_quietly s
       (Hybrid.searchCity_resume_nominatim API_BASE nominatim_reply s)
  /\ search_failed_quietly s (OverpassOnly.searchCity_resume nominatim_reply s).
Proof.
  intros Ha Hn. unfold search_failed_quietly.
  destruct api_reply as [m|m|d]; destruct nominatim_reply as [m'|m'|l];
    try rewrite (Hn l eq_refl);
    open_handlers; try rewrite (Ha d eq_refl); simpl; repeat split.
Qed.


(** X21. When the map does not accept the coordinates, [updateLocation]
    has replaced [currentLat] and [currentLng] before the widget throws,
    and nothing else has happened: the view is where it was and no place
    request is issued.  The geolocation callback ends there.  A city
    search that came to such coordinates ends in its [catch] clause: the
    widget's error is logged and shown as ["City search error:
    <message>"], with the centre replaced and the view, the markers and
    the calls issued as before. *)
Theorem rejected_coordinates_replace_centre_only
    (hostname API_BASE : string) (lat lng : JsVal) (city : CityEnvelope)
    (first : Match) (rest : list Match) (s : State) :
  (map_accepts lat lng = false ->
   PythonApi.updateLocation hostname lat lng s
     = Throw (LatLngError lat lng) (set_center lat lng s)
   /\ Hybrid.updateLocation API_BASE lat lng s
      = Throw (LatLngError lat lng) (set_center lat lng s)
   /\ OverpassOnly.updateLocation lat lng s
      = Throw (LatLngError lat lng) (set_center lat lng s)
   /\ PythonApi.useCurrentLocation_success hostname lat lng s
      = set_center lat lng s
   /\ OverpassOnly.useCurrentLocation_success lat lng s = set_center lat lng s)
  /\ (truthy (ce_success city) = true ->
      map_accepts (ce_lat city) (ce_lng city) = false ->
      PythonApi.searchCity_resume hostname (JsonParsed city) s
      = PythonApi.searchCity_catch (LatLngError (ce_lat city) (ce_lng city))
          (set_center (ce_lat city) (ce_lng city) s)
      /\ Hybrid.searchCity_resume_api API_BASE (JsonParsed city) s
         = Hybrid.searchCity_catch (LatLngError (ce_lat city) (ce_lng city))
             (set_center (ce_lat city) (ce_lng city) s))
  /\ (map_accepts (parseFloat (n_lat first)) (parseFloat (n_lon first)) = false ->
      Hybrid.searchCity_resume_nominatim API_BASE (JsonParsed (first :: rest)) s
      = Hybrid.searchCity_catch
          (LatLngError (parseFloat (n_lat first)) (parseFloat (n_lon first)))
          (set_center (parseFloat (n_lat first)) (parseFloat (n_lon first)) s)
      /\ OverpassOnly.searchCity_resume (JsonParsed (first :: rest)) s
         = OverpassOnly.searchCity_catch
             (LatLngError (parseFloat (n_lat first)) (parseFloat (n_lon first)))
             (set_center (parseFloat (n_lat first)) (parseFloat (n_lon first)) s)
      /\ statusText (OverpassOnly.searchCity_resume (JsonParsed (first :: rest)) s)
         = "City search error: "
           +:+ message (LatLngError (parseFloat (n_lat first))
                                    (parseFloat (n_lon first)))
      /\ sent (OverpassOnly.searchCity_resume (JsonParsed (first :: rest)) s)
         = sent s
      /\ mapCenter (OverpassOnly.searchCity_resume (JsonParsed (first :: rest)) s)
         = mapCenter s).
Proof.
  unfold map_accepts. split; [|split].
  - intros Hm. destruct (toLatLng lat lng) eqn:E; [discriminate|].
    unfold PythonApi.useCurrentLocation_success,
      OverpassOnly.useCurrentLocation_success, PythonApi.updateLocation,
      Hybrid.updateLocation, OverpassOnly.updateLocation, setView.
    cbv zeta. rewrite E. repeat split.
  - intros H Hm.
    destruct (toLatLng (ce_lat city) (ce_lng city)) eqn:E; [discriminate|].
    unfold PythonApi.searchCity_resume, Hybrid.searchCity_resume_api,
      PythonApi.updateLocation, Hybrid.updateLocation, setView, await.
    cbv zeta. rewrite H. simpl. rewrite E. repeat split.
  - intros Hm.
    destruct (toLatLng (parseFloat (n_lat first)) (parseFloat (n_lon first)))
      eqn:E; [discriminate|].
    unfold Hybrid.searchCity_resume_nominatim, OverpassOnly.searchCity_resume,
      Hybrid.updateLocation, OverpassOnly.updateLocation, setView, await.
    cbv zeta. rewrite E. repeat split.
Qed.

End Traces.

(** X15. The size class of a cluster icon follows the number of markers
    in the cluster: [small] below 10, [medium] from 10 to 99, [large] from
    100 on; the icon shows the count and measures 40 by 40. *)
Theorem cluster_icon_size_thresholds (count : nat) :
  (count < 10 ->
   icon_className (iconCreateFunction count) = "pizza-cluster pizza-cluster-small")
  /\ (10 <= count < 100 ->
      icon_className (iconCreateFunction count)
      = "pizza-cluster pizza-cluster-medium")
  /\ (100 <= count ->
      icon_className (iconCreateFunction count)
      = "pizza-cluster pizza-cluster-large")
  /\ icon_count (iconCreateFunction count) = count
  /\ icon_size (iconCreateFunction count) = (40, 40).
Proof.
  unfold iconCreateFunction. cbv zeta.
  destruct (Nat.leb_spec 10 count); destruct (Nat.leb_spec 100 count);
    simpl; repeat split; intros; try lia; reflexivity.
Qed.

Lemma cluster_icon_size_thresholds_witness :
  icon_className (iconCreateFunction 9) = "pizza-cluster pizza-cluster-small"
  /\ icon_className (iconCreateFunction 10) = "pizza-cluster pizza-cluster-medium"
  /\ icon_className (iconCreateFunction 99) = "pizza-cluster pizza-cluster-medium"
  /\ icon_className (iconCreateFunction 100) = "pizza-cluster pizza-cluster-large".
Proof.
  split; [apply (cluster_icon_size_thresholds 9); lia|].
  split; [apply (cluster_icon_size_thresholds 10); lia|].
  split; [apply (cluster_icon_size_thresholds 99); lia|].
  apply (cluster_icon_size_thresholds 100); lia.
Defined.

Lemma is_yes_spec (v : JsVal) : is_yes v = true <-> v = JStr "yes".
Proof.
  destruct v; simpl; try (split; [discriminate|discriminate]).
  rewrite String.eqb_eq. split; [by intros ->|by intros [= ->]].
Qed.

Lemma createPopupContent_rows (place : Place) :
  createPopupContent place
  = [PopupTitle (p_name place); PopupInfo "Type:" (p_amenity place)]
    ++ (if truthy (p_address place)
        then [PopupInfo "Address:" (p_address place)] else [])
    ++ (if truthy (p_phone place)
        then [PopupInfo "Phone:" (p_phone place)] else [])
    ++ (if truthy (p_website place) then [PopupWebsite (p_website place)] else [])
    ++ (if truthy (p_opening_hours place)
        then [PopupInfo "Hours:" (p_opening_hours place)] else [])
    ++ (if is_yes (p_takeaway place)
        then [PopupBadge "Takeaway available"] else [])
    ++ (if is_yes (p_delivery place)
        then [PopupBadge "Delivery available"] else []).
Proof.
  unfold createPopupContent.
  destruct (truthy (p_address place)), (truthy (p_phone place)),
    (truthy (p_website place)), (truthy (p_opening_hours place)),
    (is_yes (p_takeaway place)), (is_yes (p_delivery place)); reflexivity.
Qed.

Lemma elem_of_if {A} (b : bool) (x y : A) :
  x ∈ (if b then [y] else []) <-> b = true /\ x = y.
Proof.
  destruct b.
  - rewrite list_elem_of_singleton. by intuition.
  - rewrite elem_of_nil. by intuition.
Qed.

(** X16. The popup of a place starts with its name and its category and
    has at most six further pieces.  The rows for the address, the phone,
    the website and the opening hours are there exactly when the field is
    truthy, and show that field; the takeaway and delivery badges are
    there exactly when the field is the string ["yes"]. *)
Theorem popup_shows_what_is_there (place : Place) :
  (exists rest,
      createPopupContent place
      = PopupTitle (p_name place) :: PopupInfo "Type:" (p_amenity place) :: rest
      /\ length rest <= 6)
  /\ (forall v, PopupInfo "Address:" v ∈ createPopupContent place
                <-> v = p_address place /\ truthy v = true)
  /\ (forall v, PopupInfo "Phone:" v ∈ createPopupContent place
                <-> v = p_phone place /\ truthy v = true)
  /\ (forall v, PopupWebsite v ∈ createPopupContent place
                <-> v = p_website place /\ truthy v = true)
  /\ (forall v, PopupInfo "Hours:" v ∈ createPopupContent place
                <-> v = p_opening_hours place /\ truthy v = true)
  /\ (PopupBadge "Takeaway available" ∈ createPopupContent place
      <-> p_takeaway place = JStr "yes")
  /\ (PopupBadge "Delivery available" ∈ createPopupContent place
      <-> p_delivery place = JStr "yes").
Proof.
  rewrite createPopupContent_rows. split.
  { eexists. split; [reflexivity|].
    destruct (truthy (p_address place)), (truthy (p_phone place)),
      (truthy (p_website place)), (truthy (p_opening_hours place)),
      (is_yes (p_takeaway place)), (is_yes (p_delivery place)); simpl; lia. }
  pose proof (is_yes_spec (p_takeaway place)) as Ht.
  pose proof (is_yes_spec (p_delivery place)) as Hd.
  repeat split; intros;
    rewrite ?elem_of_app, ?elem_of_cons, ?elem_of_nil, ?elem_of_if in *;
    naive_solver.
Qed.

Section PopupOfElement.
Context {rt : JsRuntime}.

Lemma tag_or_empty_truthy (source field : JsVal) :
  tag_or_empty source field -> truthy field = true -> field = source.
Proof. intros [->|[-> _]]; [discriminate|done]. Qed.

(** X17. The popup of a place made from an Overpass element never prints
    an empty or undefined value: the name and the category are truthy
    whatever the tags are, and every other row is there only when its
    value is truthy.  An element without tags gets a popup of two pieces,
    the name ["Pizza Place"] and the category ["restaurant"]. *)
Theorem popup_of_element_prints_no_blank
    (el : Element) (lat lng : JsVal) (piece : PopupPiece) :
  (piece ∈ createPopupContent (Hybrid.placeOf el lat lng) ->
   piece_value_truthy piece)
  /\ (piece ∈ createPopupContent (OverpassOnly.normalizeElement el) ->
      piece_value_truthy piece)
  /\ (el_tags el = None ->
      createPopupContent (Hybrid.placeOf el lat lng)
      = [PopupTitle (JStr "Pizza Place"); PopupInfo "Type:" (JStr "restaurant")]
      /\ createPopupContent (OverpassOnly.normalizeElement el)
         = [PopupTitle (JStr "Pizza Place");
            PopupInfo "Type:" (JStr "restaurant")]).
Proof.
  assert (forall place : Place,
            truthy (p_name place) = true -> truthy (p_amenity place) = true ->
            piece ∈ createPopupContent place -> piece_value_truthy piece) as Hgen.
  { intros place Hn Ha. rewrite createPopupContent_rows.
    rewrite ?elem_of_app, ?elem_of_cons, ?elem_of_nil, ?elem_of_if.
    unfold piece_value_truthy. naive_solver. }
  split; [|split].
  - apply Hgen; by apply js_or_truthy.
  - apply Hgen; simpl; by apply js_or_truthy.
  - intros H. unfold Hybrid.placeOf, OverpassOnly.normalizeElement.
    rewrite H. split; by vm_compute.
Qed.

End PopupOfElement.

(** ** Worked examples for the further properties *)

Lemma normalised_place_has_safe_defaults_witness :
  el_tags way_element = None
  /\ p_name (Hybrid.placeOf (rt := example_runtime) way_element
               (JNum 52.53) (JNum 13.41))
     = JStr "Pizza Place".
Proof.
  split; [reflexivity|].
  destruct (normalised_place_has_safe_defaults (rt := example_runtime)
              way_element (JNum 52.53) (JNum 13.41)) as (_ & _ & _ & H).
  exact (f_equal p_name (proj1 (H eq_refl))).
Defined.

Lemma normalisation_keeps_order_witness :
  Hybrid.normalizeElement (rt := example_runtime) way_element
  = Some (Hybrid.placeOf (rt := example_runtime) way_element
            (JNum 52.53) (JNum 13.41))
  /\ p_id (Hybrid.placeOf (rt := example_runtime) way_element
             (JNum 52.53) (JNum 13.41))
     = el_id way_element.
Proof.
  split; [reflexivity|].
  destruct (normalisation_keeps_order (rt := example_runtime) [way_element] [])
    as (_ & _ & H & _).
  exact (proj1 (H way_element _ eq_refl)).
Defined.

Lemma centre_is_always_requested_witness :
  position_accepted (mw := example_widget)
    (overpass_position (rt := example_runtime)
       (OverpassOnly.CitySettled (JsonParsed [berlin])))
  /\ centre_requested
       (OverpassOnly.run (rt := example_runtime) (mw := example_widget)
          [OverpassOnly.SearchCityCalled "Berlin";
           OverpassOnly.CitySettled (JsonParsed [berlin])]
          (OverpassOnly.DOMContentLoaded (mw := example_widget) initial_state)).
Proof.
  split; [reflexivity|].
  refine (proj2 (proj2 (centre_is_always_requested
                          (rt := example_runtime) (mw := example_widget)
                          "localhost" Hybrid.shipped_API_BASE initial_state
                          [] []
                          [OverpassOnly.SearchCityCalled "Berlin";
                           OverpassOnly.CitySettled (JsonParsed [berlin])]
                          _ _ _))).
  - constructor.
  - constructor.
  - repeat constructor.
Defined.


Lemma events_leave_markers_and_centre_witness :
  PythonApi.may_render (PythonApi.PositionFound (JNum 48.137) (JNum 11.575))
  = false
  /\ markerCluster
       (PythonApi.handle (rt := example_runtime) (mw := example_widget)
          "localhost"
          (PythonApi.PositionFound (JNum 48.137) (JNum 11.575))
          state_with_marker)
     = markerCluster state_with_marker.
Proof.
  split; [reflexivity|].
  destruct (events_leave_markers_and_centre
              (rt := example_runtime) (mw := example_widget)
              "localhost" Hybrid.shipped_API_BASE state_with_marker
              (PythonApi.PositionFound (JNum 48.137) (JNum 11.575))
              (Hybrid.KeyPressed "a" "Ber")
              (OverpassOnly.KeyPressed "a" "Ber")) as (H & _).
  exact (H eq_refl).
Defined.

Lemma popup_shows_what_is_there_witness :
  p_takeaway takeaway_place = JStr "yes"
  /\ PopupBadge "Takeaway available" ∈ createPopupContent takeaway_place.
Proof.
  split; [reflexivity|].
  destruct (popup_shows_what_is_there takeaway_place)
    as (_ & _ & _ & _ & _ & H & _).
  exact (proj2 H eq_refl).
Defined.

Lemma popup_of_element_prints_no_blank_witness :
  el_tags bare_element = None
  /\ createPopupContent
       (Hybrid.placeOf (rt := example_runtime) bare_element JUndefined JUndefined)
     = [PopupTitle (JStr "Pizza Place"); PopupInfo "Type:" (JStr "restaurant")].
Proof.
  split; [reflexivity|].
  destruct (popup_of_element_prints_no_blank (rt := example_runtime)
              bare_element JUndefined JUndefined (PopupBadge "")) as (_ & _ & H).
  exact (proj1 (H eq_refl)).
Defined.

Lemma calls_go_to_the_configured_upstream_witness :
  sent initial_state = []
  /\ includes "overpass-api.de" Hybrid.shipped_API_BASE = true
  /\ Forall (goes_to_osm Hybrid.shipped_API_BASE)
       (sent (Hybrid.run (rt := example_runtime) (mw := example_widget)
                Hybrid.shipped_API_BASE
                [Hybrid.KeyPressed "Enter" "Berlin";
                 Hybrid.NominatimSettled (JsonParsed [berlin])]
                (Hybrid.DOMContentLoaded (mw := example_widget)
                   Hybrid.shipped_API_BASE initial_state))).
Proof.
  split; [reflexivity|]. split; [reflexivity|].
  destruct (calls_go_to_the_configured_upstream
              (rt := example_runtime) (mw := example_widget)
              "localhost" Hybrid.shipped_API_BASE initial_state []
              [Hybrid.KeyPressed "Enter" "Berlin";
               Hybrid.NominatimSettled (JsonParsed [berlin])]
              [] eq_refl)
    as (_ & _ & H & _).
  exact (H eq_refl).
Defined.

Lemma failed_city_search_moves_nothing_witness :
  search_failed_quietly state_with_marker
    (OverpassOnly.searchCity_resume (rt := example_runtime) (mw := example_widget)
       (JsonParsed []) state_with_marker).
Proof.
  refine (proj2 (proj2 (proj2
            (failed_city_search_moves_nothing
               (rt := example_runtime) (mw := example_widget)
               "localhost" Hybrid.shipped_API_BASE
               (FetchRejected "Failed to fetch") (JsonParsed [])
               state_with_marker _ _)))).
  - intros data H. discriminate H.
  - intros data H. injection H as <-. reflexivity.
Defined.


Lemma rejected_coordinates_replace_centre_only_witness :
  map_accepts (mw := example_widget)
    (parseFloat (rt := example_runtime) (n_lat unreadable_match))
    (parseFloat (rt := example_runtime) (n_lon unreadable_match)) = false
  /\ statusClass
       (OverpassOnly.searchCity_resume (rt := example_runtime)
          (mw := example_widget) (JsonParsed [unreadable_match])
          state_with_marker)
     = "status error"
  /\ sent (OverpassOnly.searchCity_resume (rt := example_runtime)
             (mw := example_widget) (JsonParsed [unreadable_match])
             state_with_marker)
     = sent state_with_marker
  /\ mapCenter (OverpassOnly.searchCity_resume (rt := example_runtime)
                  (mw := example_widget) (JsonParsed [unreadable_match])
                  state_with_marker)
     = mapCenter state_with_marker.
Proof.
  split; [reflexivity|].
  destruct (rejected_coordinates_replace_centre_only
              (rt := example_runtime) (mw := example_widget)
              "localhost" Hybrid.shipped_API_BASE JUndefined JUndefined
              {| ce_success := JBool false; ce_city := JUndefined;
                 ce_lat := JUndefined; ce_lng := JUndefined;
                 ce_error := JUndefined |}
              unreadable_match [] state_with_marker) as (_ & _ & H).
  destruct (H eq_refl) as (_ & Hr & _ & Hs & Hc).
  split; [exact (f_equal statusClass Hr)|]. split; [exact Hs|exact Hc].
Defined.
